(** * ProcessingThreadModel: the per-camera processing worker

    A shallow embedding of [src/trafficgo/model/ProcessingThreadModel.py]:
    the frame-rate estimator ([updateFPS]), the configuration setters
    ([setROI], [updateImageProcessingFlags], [updateImageProcessingSettings]),
    the image pipeline of one loop iteration and the run loop with its
    cooperative stop flag.

    Python integers are [Z].  Python floats, the OpenCV binding and the
    constants of [src.utils.Config] are interfaces (type classes) of the
    development; the attributes of [self] are the fields of one record that
    every method threads through a small state-and-exception monad. *)

From Stdlib Require Import ZArith List Bool Lia Floats Uint63.
Import ListNotations.
Open Scope Z_scope.

(** ** External interfaces *)

(** [from src.utils.Config import *]: the window length of the estimator. *)
Class Config := {
  PROCESSING_FPS_STAT_QUEUE_LENGTH : Z
}.

(** The float arithmetic [updateFPS] performs.  The two divisions are only
    called with a non-zero divisor; Python raises [ZeroDivisionError]
    otherwise, which the model does before calling them. *)
Class PyFloat := {
  pyfloat : Type;
  float_zero : pyfloat;                        (* the literal 0.0 *)
  float_add : pyfloat -> pyfloat -> pyfloat;   (* float + float *)
  int_truediv : Z -> Z -> pyfloat;             (* int / int *)
  float_truediv : pyfloat -> Z -> pyfloat      (* float / int *)
}.

(** The exceptions that can leave a method of the class. *)
Inductive exn : Type :=
| IndexError          (* tuple index out of range: [shape[2]] of a 2-D array *)
| ZeroDivisionError   (* division by a zero window length *)
| AttributeError      (* attribute of [None] *)
| cv2_error.          (* raised inside the OpenCV binding *)

(** An image as the loop sees a numpy array: its elements by row and column
    and the third component of [shape].  [channels] is [None] for a 2-D array
    (shape [(h, w)]) and [Some c] for shape [(h, w, c)]. *)
Record Mat (Pixel : Type) := mkMat {
  rows : list (list Pixel);
  channels : option Z
}.
Arguments mkMat {Pixel} _ _.
Arguments rows {Pixel} _.
Arguments channels {Pixel} _.

(** The OpenCV calls of the pipeline and [matToQImage]; each may raise.
    The numeric settings are handed to the binding as they are.
    The structuring element of [dilate] and [erode] is the class attribute
    [kernel] (3x3 rectangle) and is not an argument here; [putText] is
    called with constant arguments only. *)
Class Imaging := {
  Pixel : Type;
  QImage : Type;
  cvtColor_BGR2GRAY : Mat Pixel -> exn + Mat Pixel;
  blur : Mat Pixel -> Z -> Z -> exn + Mat Pixel;
  GaussianBlur : Mat Pixel -> Z -> Z -> Z -> Z -> exn + Mat Pixel;
  medianBlur : Mat Pixel -> Z -> exn + Mat Pixel;
  dilate : Mat Pixel -> Z -> exn + Mat Pixel;
  erode : Mat Pixel -> Z -> exn + Mat Pixel;
  flip : Mat Pixel -> Z -> exn + Mat Pixel;
  Canny : Mat Pixel -> Z -> Z -> Z -> bool -> exn + Mat Pixel;
  putText_speed : Mat Pixel -> exn + Mat Pixel;
  matToQImage : Mat Pixel -> exn + QImage
}.

(** ** QRect, as Qt stores it: the two corners, both inclusive. *)
Module QRect.

Record t := mk { x1 : Z; y1 : Z; x2 : Z; y2 : Z }.

(** [QRect()] *)
Definition null : t := mk 0 0 (-1) (-1).
(** [QRect(x, y, width, height)] *)
Definition make (x y w h : Z) : t := mk x y (x + w - 1) (y + h - 1).

Definition x (r : t) : Z := x1 r.
Definition y (r : t) : Z := y1 r.
Definition width (r : t) : Z := x2 r - x1 r + 1.
Definition height (r : t) : Z := y2 r - y1 r + 1.

(** [setX] and [setY] move the left and top edge and keep the opposite
    one; [setWidth] and [setHeight] move the right and bottom edge. *)
Definition setX (v : Z) (r : t) : t := mk v (y1 r) (x2 r) (y2 r).
Definition setY (v : Z) (r : t) : t := mk (x1 r) v (x2 r) (y2 r).
Definition setWidth (w : Z) (r : t) : t := mk (x1 r) (y1 r) (x1 r + w - 1) (y2 r).
Definition setHeight (h : Z) (r : t) : t := mk (x1 r) (y1 r) (x2 r) (y1 r + h - 1).

End QRect.

(** ** The structures of [src.utils.Structures] the class reads and writes *)

Record ImageProcessingFlags := mkFlags {
  grayscaleOn : bool;
  smoothOn : bool;
  dilateOn : bool;
  erodeOn : bool;
  flipOn : bool;
  cannyOn : bool;
  speedOn : bool
}.

Record ImageProcessingSettings := mkSettings {
  smoothType : Z;
  smoothParam1 : Z;
  smoothParam2 : Z;
  smoothParam3 : Z;
  smoothParam4 : Z;
  dilateNumberOfIterations : Z;
  erodeUrlOfIterations : Z;
  flipCode : Z;
  cannyThreshold1 : Z;
  cannyThreshold2 : Z;
  cannyApertureSize : Z;
  cannyL2gradient : bool
}.

Section Model.

Context {cfg : Config} {fl : PyFloat} {img : Imaging}.

Record ThreadStatisticsData := mkStats {
  averageFPS : pyfloat;
  nFramesProcessed : Z
}.

(** The two signals of the class, with their payload. *)
Inductive Signal : Type :=
| newFrame (q : QImage)
| updateStatisticsInGUI (d : ThreadStatisticsData).

(** The attributes of [self] the methods below use.  [fps] is the
    [queue.Queue]: [put] appends at the back, [get] takes from the front.
    [emitted] is the log of the signals emitted so far, oldest first. *)
Record ProcessingThreadModel := mkThread {
  doStop : bool;
  processingTime : Z;
  sampleNumber : Z;
  fpsSum : pyfloat;
  fps : list pyfloat;
  currentROI : QRect.t;
  imgProcFlags : ImageProcessingFlags;
  imgProcSettings : ImageProcessingSettings;
  statsData : ThreadStatisticsData;
  frame : option QImage;
  currentFrame : option (Mat Pixel);
  emitted : list Signal
}.

Definition set_doStop v s :=
  mkThread v (processingTime s) (sampleNumber s) (fpsSum s) (fps s)
    (currentROI s) (imgProcFlags s) (imgProcSettings s) (statsData s)
    (frame s) (currentFrame s) (emitted s).
Definition set_processingTime v s :=
  mkThread (doStop s) v (sampleNumber s) (fpsSum s) (fps s)
    (currentROI s) (imgProcFlags s) (imgProcSettings s) (statsData s)
    (frame s) (currentFrame s) (emitted s).
Definition set_sampleNumber v s :=
  mkThread (doStop s) (processingTime s) v (fpsSum s) (fps s)
    (currentROI s) (imgProcFlags s) (imgProcSettings s) (statsData s)
    (frame s) (currentFrame s) (emitted s).
Definition set_fpsSum v s :=
  mkThread (doStop s) (processingTime s) (sampleNumber s) v (fps s)
    (currentROI s) (imgProcFlags s) (imgProcSettings s) (statsData s)
    (frame s) (currentFrame s) (emitted s).
Definition set_fps v s :=
  mkThread (doStop s) (processingTime s) (sampleNumber s) (fpsSum s) v
    (currentROI s) (imgProcFlags s) (imgProcSettings s) (statsData s)
    (frame s) (currentFrame s) (emitted s).
Definition set_currentROI v s :=
  mkThread (doStop s) (processingTime s) (sampleNumber s) (fpsSum s) (fps s)
    v (imgProcFlags s) (imgProcSettings s) (statsData s)
    (frame s) (currentFrame s) (emitted s).
Definition set_imgProcFlags v s :=
  mkThread (doStop s) (processingTime s) (sampleNumber s) (fpsSum s) (fps s)
    (currentROI s) v (imgProcSettings s) (statsData s)
    (frame s) (currentFrame s) (emitted s).
Definition set_imgProcSettings v s :=
  mkThread (doStop s) (processingTime s) (sampleNumber s) (fpsSum s) (fps s)
    (currentROI s) (imgProcFlags s) v (statsData s)
    (frame s) (currentFrame s) (emitted s).
Definition set_statsData v s :=
  mkThread (doStop s) (processingTime s) (sampleNumber s) (fpsSum s) (fps s)
    (currentROI s) (imgProcFlags s) (imgProcSettings s) v
    (frame s) (currentFrame s) (emitted s).
Definition set_frame v s :=
  mkThread (doStop s) (processingTime s) (sampleNumber s) (fpsSum s) (fps s)
    (currentROI s) (imgProcFlags s) (imgProcSettings s) (statsData s)
    v (currentFrame s) (emitted s).
Definition set_currentFrame v s :=
  mkThread (doStop s) (processingTime s) (sampleNumber s) (fpsSum s) (fps s)
    (currentROI s) (imgProcFlags s) (imgProcSettings s) (statsData s)
    (frame s) v (emitted s).
Definition set_emitted v s :=
  mkThread (doStop s) (processingTime s) (sampleNumber s) (fpsSum s) (fps s)
    (currentROI s) (imgProcFlags s) (imgProcSettings s) (statsData s)
    (frame s) (currentFrame s) v.

(** [__init__]: the members the constructor initialises.  The default
    constructed structures come from [src.utils.Structures]. *)
Definition init (flags0 : ImageProcessingFlags)
    (settings0 : ImageProcessingSettings) (stats0 : ThreadStatisticsData)
    : ProcessingThreadModel :=
  mkThread false 0 0 float_zero [] QRect.null flags0 settings0 stats0
    None None [].

(** ** The monad of a method body

    A method runs on [self] and either returns, raises, or never returns
    ([Queue.get] on an empty queue blocks for ever).  The attributes
    written before an exception stay written. *)
Inductive outcome (A : Type) : Type :=
| Done (a : A) (s : ProcessingThreadModel)
| Raised (e : exn) (s : ProcessingThreadModel)
| Blocked (s : ProcessingThreadModel).
Arguments Done {A} _ _.
Arguments Raised {A} _ _.
Arguments Blocked {A} _.

Definition M (A : Type) : Type := ProcessingThreadModel -> outcome A.

Definition ret {A} (a : A) : M A := fun s => Done a s.
Definition bind {A B} (m : M A) (k : A -> M B) : M B :=
  fun s => match m s with
           | Done a s' => k a s'
           | Raised e s' => Raised e s'
           | Blocked s' => Blocked s'
           end.
Definition raise {A} (e : exn) : M A := fun s => Raised e s.
Definition gets {A} (f : ProcessingThreadModel -> A) : M A :=
  fun s => Done (f s) s.
Definition modify (f : ProcessingThreadModel -> ProcessingThreadModel)
    : M unit :=
  fun s => Done tt (f s).
Definition when (b : bool) (m : M unit) : M unit :=
  if b then m else ret tt.
(** The result of a call into the binding: a value or an exception. *)
Definition lift {A} (r : exn + A) : M A :=
  match r with inl e => raise e | inr a => ret a end.

Notation "x <- m ;; k" := (bind m (fun x => k))
  (at level 61, m at next level, right associativity).
Notation "m ;; k" := (bind m (fun _ => k))
  (at level 61, right associativity).

(** ** The queue operations [updateFPS] uses *)

Definition qsize : M Z := gets (fun s => Z.of_nat (length (fps s))).
Definition fps_empty : M bool :=
  gets (fun s => match fps s with [] => true | _ => false end).
Definition fps_put (v : pyfloat) : M unit :=
  modify (fun s => set_fps (fps s ++ [v]) s).
(** [Queue.get()] with the default [block=True]. *)
Definition fps_get : M pyfloat :=
  fun s => match fps s with
           | [] => Blocked s
           | v :: q => Done v (set_fps q s)
           end.

(** [while not self.fps.empty(): self.fpsSum += self.fps.get()].
    The loop runs once per queued sample; [n] counts the samples left. *)
Fixpoint drain (n : nat) : M unit :=
  match n with
  | O => ret tt
  | S n' =>
      e <- fps_empty ;;
      if e then ret tt
      else (v <- fps_get ;;
            modify (fun s => set_fpsSum (float_add (fpsSum s) v) s) ;;
            drain n')
  end.

(** ** [updateFPS] *)

Definition N : Z := PROCESSING_FPS_STAT_QUEUE_LENGTH.

(** [self.fpsSum / PROCESSING_FPS_STAT_QUEUE_LENGTH] *)
Definition average : M pyfloat :=
  sum <- gets fpsSum ;;
  if N =? 0 then raise ZeroDivisionError else ret (float_truediv sum N).

(** Lines 139-142: a positive elapsed time is turned into a rate, queued
    and counted. *)
Definition record_sample (timeElapsed : Z) : M unit :=
  when (0 <? timeElapsed)
    (fps_put (int_truediv 1000 timeElapsed) ;;
     modify (fun s => set_sampleNumber (sampleNumber s + 1) s)).

(** Lines 145-146: a queue longer than the window loses its oldest
    sample. *)
Definition evict_oldest : M unit :=
  n <- qsize ;;
  when (N <? n) (fps_get ;; ret tt).

(** Lines 149-158: a full window of N counted samples is drained, summed
    and published, and the sum and the counter are reset. *)
Definition publish_batch : M unit :=
  n <- qsize ;;
  k <- gets sampleNumber ;;
  when ((n =? N) && (k =? N))
    (len <- gets (fun s => length (fps s)) ;;
     drain len ;;
     avg <- average ;;
     modify (fun s => set_statsData
                        (mkStats avg (nFramesProcessed (statsData s))) s) ;;
     modify (set_fpsSum float_zero) ;;
     modify (set_sampleNumber 0)).

Definition updateFPS (timeElapsed : Z) : M unit :=
  record_sample timeElapsed ;;
  evict_oldest ;;
  publish_batch.

(** The two branch conditions, as the call [updateFPS t] evaluates them on
    [s]: is the oldest sample evicted, is the average published. *)
Definition evicts (timeElapsed : Z) (s : ProcessingThreadModel) : bool :=
  match record_sample timeElapsed s with
  | Done _ s1 => N <? Z.of_nat (length (fps s1))
  | _ => false
  end.

Definition publishes (timeElapsed : Z) (s : ProcessingThreadModel) : bool :=
  match (record_sample timeElapsed ;; evict_oldest) s with
  | Done _ s2 =>
      (Z.of_nat (length (fps s2)) =? N) && (sampleNumber s2 =? N)
  | _ => false
  end.

(** Consecutive calls of [updateFPS], one per sample. *)
Fixpoint feed (samples : list Z) : M unit :=
  match samples with
  | [] => ret tt
  | t :: rest => updateFPS t ;; feed rest
  end.

(** How many of these calls assign [statsData.averageFPS]. *)
Fixpoint publications (samples : list Z) (s : ProcessingThreadModel) : nat :=
  match samples with
  | [] => O
  | t :: rest =>
      ((if publishes t s then 1 else 0) +
       match updateFPS t s with
       | Done _ s' => publications rest s'
       | _ => 0
       end)%nat
  end.

(** Between two calls the counter equals the queue length, stays below
    the window length, and the running sum is zero. *)
Definition estimator_inv (s : ProcessingThreadModel) : Prop :=
  sampleNumber s = Z.of_nat (length (fps s)) /\
  Z.of_nat (length (fps s)) < N /\
  fpsSum s = float_zero.

(** The state [updateFPS] publishes from a full window [q]. *)
Definition published (q : list pyfloat) (s : ProcessingThreadModel)
    : ProcessingThreadModel :=
  set_sampleNumber 0
    (set_fpsSum float_zero
       (set_statsData
          (mkStats (float_truediv (fold_left float_add q float_zero) N)
             (nFramesProcessed (statsData s)))
          (set_fps [] s))).

(** ** Configuration methods (each under [processingMutex]) *)

Definition set_grayscaleOn v f :=
  mkFlags v (smoothOn f) (dilateOn f) (erodeOn f) (flipOn f) (cannyOn f) (speedOn f).
Definition set_smoothOn v f :=
  mkFlags (grayscaleOn f) v (dilateOn f) (erodeOn f) (flipOn f) (cannyOn f) (speedOn f).
Definition set_dilateOn v f :=
  mkFlags (grayscaleOn f) (smoothOn f) v (erodeOn f) (flipOn f) (cannyOn f) (speedOn f).
Definition set_erodeOn v f :=
  mkFlags (grayscaleOn f) (smoothOn f) (dilateOn f) v (flipOn f) (cannyOn f) (speedOn f).
Definition set_flipOn v f :=
  mkFlags (grayscaleOn f) (smoothOn f) (dilateOn f) (erodeOn f) v (cannyOn f) (speedOn f).
Definition set_cannyOn v f :=
  mkFlags (grayscaleOn f) (smoothOn f) (dilateOn f) (erodeOn f) (flipOn f) v (speedOn f).
Definition set_speedOn v f :=
  mkFlags (grayscaleOn f) (smoothOn f) (dilateOn f) (erodeOn f) (flipOn f) (cannyOn f) v.

(** [self.imgProcFlags.<field> = v] *)
Definition assign_flag (set : ImageProcessingFlags -> ImageProcessingFlags)
    : M unit :=
  modify (fun s => set_imgProcFlags (set (imgProcFlags s)) s).

Definition updateImageProcessingFlags (imgProcFlags : ImageProcessingFlags)
    : M unit :=
  assign_flag (set_grayscaleOn (grayscaleOn imgProcFlags)) ;;
  assign_flag (set_smoothOn (smoothOn imgProcFlags)) ;;
  assign_flag (set_dilateOn (dilateOn imgProcFlags)) ;;
  assign_flag (set_erodeOn (erodeOn imgProcFlags)) ;;
  assign_flag (set_flipOn (flipOn imgProcFlags)) ;;
  assign_flag (set_cannyOn (cannyOn imgProcFlags)) ;;
  assign_flag (set_speedOn (speedOn imgProcFlags)).

(** The method copies the twelve settings one by one; the record is
    rebuilt from the argument's fields in the same order. *)
Definition updateImageProcessingSettings
    (imgProcSettings : ImageProcessingSettings) : M unit :=
  modify (set_imgProcSettings
    (mkSettings (smoothType imgProcSettings) (smoothParam1 imgProcSettings)
       (smoothParam2 imgProcSettings) (smoothParam3 imgProcSettings)
       (smoothParam4 imgProcSettings)
       (dilateNumberOfIterations imgProcSettings)
       (erodeUrlOfIterations imgProcSettings) (flipCode imgProcSettings)
       (cannyThreshold1 imgProcSettings) (cannyThreshold2 imgProcSettings)
       (cannyApertureSize imgProcSettings) (cannyL2gradient imgProcSettings))).

(** [self.currentROI.<setter>(v)] *)
Definition on_roi (f : QRect.t -> QRect.t) : M unit :=
  modify (fun s => set_currentROI (f (currentROI s)) s).

Definition setROI (roi : QRect.t) : M unit :=
  on_roi (QRect.setX (QRect.x roi)) ;;
  on_roi (QRect.setY (QRect.y roi)) ;;
  on_roi (QRect.setWidth (QRect.width roi)) ;;
  on_roi (QRect.setHeight (QRect.height roi)).

Definition getCurrentROI (s : ProcessingThreadModel) : QRect.t :=
  QRect.make (QRect.x (currentROI s)) (QRect.y (currentROI s))
    (QRect.width (currentROI s)) (QRect.height (currentROI s)).

(** [stop], under [doStopMutex]. *)
Definition stop : M unit := modify (set_doStop true).

(** ** One loop iteration *)

(** A Python slice [l[start:stop]] of a sequence: a negative index counts
    from the end, and both ends are clamped to the sequence. *)
Definition slice_index (len i : Z) : Z :=
  if i <? 0 then Z.max 0 (i + len) else Z.min i len.

Definition py_slice {A} (start stop : Z) (l : list A) : list A :=
  let len := Z.of_nat (length l) in
  let a := slice_index len start in
  let b := slice_index len stop in
  firstn (Z.to_nat (b - a)) (skipn (Z.to_nat a) l).

(** [frame[y:y+h, x:x+w].copy()] *)
Definition crop (r : QRect.t) (m : Mat Pixel) : Mat Pixel :=
  mkMat
    (map (py_slice (QRect.x r) (QRect.x r + QRect.width r))
       (py_slice (QRect.y r) (QRect.y r + QRect.height r) (rows m)))
    (channels m).

(** The specification's condition on a region of interest: the origin
    and the extent are not negative and the rectangle ends inside the
    frame.  The source has no such check. *)
Definition roi_fits (r : QRect.t) (m : Mat Pixel) : bool :=
  (0 <=? QRect.x r) && (0 <=? QRect.y r) &&
  (0 <=? QRect.width r) && (0 <=? QRect.height r) &&
  (QRect.y r + QRect.height r <=? Z.of_nat (length (rows m))) &&
  forallb (fun row => QRect.x r + QRect.width r <=? Z.of_nat (length row))
    (rows m).

(** The sub-rectangle of a frame: of the rows [y .. y+h-1] the columns
    [x .. x+w-1]. *)
Definition sub_rectangle (r : QRect.t) (m : Mat Pixel) : Mat Pixel :=
  mkMat
    (map (fun row => firstn (Z.to_nat (QRect.width r))
                       (skipn (Z.to_nat (QRect.x r)) row))
       (firstn (Z.to_nat (QRect.height r))
          (skipn (Z.to_nat (QRect.y r)) (rows m))))
    (channels m).

Definition all_off : ImageProcessingFlags :=
  mkFlags false false false false false false false.

Definition emit (sig : Signal) : M unit :=
  modify (fun s => set_emitted (emitted s ++ [sig]) s).

(** Reading [self.currentFrame] to call a method on it. *)
Definition get_currentFrame : M (Mat Pixel) :=
  fun s => match currentFrame s with
           | Some m => Done m s
           | None => Raised AttributeError s
           end.

(** [self.currentFrame.shape[2]] *)
Definition shape2 : M Z :=
  m <- get_currentFrame ;;
  match channels m with
  | Some c => ret c
  | None => raise IndexError
  end.

(** [self.currentFrame = f(self.currentFrame, ...)] *)
Definition transform (f : Mat Pixel -> exn + Mat Pixel) : M unit :=
  m <- get_currentFrame ;;
  m' <- lift (f m) ;;
  modify (set_currentFrame (Some m')).

Definition grayscale_step : M unit :=
  flags <- gets imgProcFlags ;;
  if grayscaleOn flags then
    (c <- shape2 ;;
     when ((c =? 3) || (c =? 4)) (transform cvtColor_BGR2GRAY))
  else ret tt.

Definition smooth_step : M unit :=
  flags <- gets imgProcFlags ;;
  p <- gets imgProcSettings ;;
  when (smoothOn flags)
    (if smoothType p =? 0 then
       transform (fun m => blur m (smoothParam1 p) (smoothParam2 p))
     else if smoothType p =? 1 then
       transform (fun m => GaussianBlur m (smoothParam1 p) (smoothParam2 p)
                             (smoothParam3 p) (smoothParam4 p))
     else if smoothType p =? 2 then
       transform (fun m => medianBlur m (smoothParam1 p))
     else ret tt).

Definition dilate_step : M unit :=
  flags <- gets imgProcFlags ;;
  p <- gets imgProcSettings ;;
  when (dilateOn flags)
    (transform (fun m => dilate m (dilateNumberOfIterations p))).

Definition erode_step : M unit :=
  flags <- gets imgProcFlags ;;
  p <- gets imgProcSettings ;;
  when (erodeOn flags)
    (transform (fun m => erode m (erodeUrlOfIterations p))).

Definition flip_step : M unit :=
  flags <- gets imgProcFlags ;;
  p <- gets imgProcSettings ;;
  when (flipOn flags) (transform (fun m => flip m (flipCode p))).

Definition canny_step : M unit :=
  flags <- gets imgProcFlags ;;
  p <- gets imgProcSettings ;;
  when (cannyOn flags)
    (transform (fun m => Canny m (cannyThreshold1 p) (cannyThreshold2 p)
                           (cannyApertureSize p) (cannyL2gradient p))).

Definition speed_step : M unit :=
  flags <- gets imgProcFlags ;;
  when (speedOn flags) (transform putText_speed).

(** The image processing between the two banner comments of [run]. *)
Definition pipeline : M unit :=
  grayscale_step ;; smooth_step ;; dilate_step ;; erode_step ;;
  flip_step ;; canny_step ;; speed_step.

(** The body of the [while] loop after the stop check.  [elapsed] is what
    [self.t.elapsed()] returns and [raw] the frame the shared buffer
    hands out in this iteration. *)
Definition iteration (elapsed : Z) (raw : Mat Pixel) : M unit :=
  modify (set_processingTime elapsed) ;;
  roi <- gets currentROI ;;
  modify (set_currentFrame (Some (crop roi raw))) ;;
  pipeline ;;
  m <- get_currentFrame ;;
  q <- lift (matToQImage m) ;;
  modify (set_frame (Some q)) ;;
  emit (newFrame q).

(** The statements of [run] after the loop. *)
Definition after_loop : M unit :=
  t <- gets processingTime ;;
  updateFPS t ;;
  modify (fun s => set_statsData
                     (mkStats (averageFPS (statsData s))
                        (nFramesProcessed (statsData s) + 1)) s) ;;
  d <- gets statsData ;;
  emit (updateStatisticsInGUI d).

(** ** Frame conditions

    [kept] lists what one loop iteration leaves alone (it writes
    [processingTime], [currentFrame], [frame] and emits); [quiet] adds
    that nothing was emitted.  [keeps R m]: however [m] ends, the
    attributes are related by [R] to those it started from, and it ends. *)
Definition kept (s s' : ProcessingThreadModel) : Prop :=
  doStop s' = doStop s /\
  sampleNumber s' = sampleNumber s /\
  fpsSum s' = fpsSum s /\
  fps s' = fps s /\
  currentROI s' = currentROI s /\
  imgProcFlags s' = imgProcFlags s /\
  imgProcSettings s' = imgProcSettings s /\
  statsData s' = statsData s.

Definition quiet (s s' : ProcessingThreadModel) : Prop :=
  kept s s' /\ emitted s' = emitted s.

Definition keeps (R : ProcessingThreadModel -> ProcessingThreadModel -> Prop)
    {A} (m : M A) : Prop :=
  forall s, match m s with
            | Done _ s' | Raised _ s' => R s s'
            | Blocked _ => False
            end.

(** The attributes of the rate estimator. *)
Definition estimator (s : ProcessingThreadModel)
    : Z * pyfloat * list pyfloat * ThreadStatisticsData :=
  (sampleNumber s, fpsSum s, fps s, statsData s).

(** What [updateFPS] leaves alone. *)
Definition beside_estimator (s s' : ProcessingThreadModel) : Prop :=
  doStop s' = doStop s /\
  processingTime s' = processingTime s /\
  currentROI s' = currentROI s /\
  imgProcFlags s' = imgProcFlags s /\
  imgProcSettings s' = imgProcSettings s /\
  frame s' = frame s /\
  currentFrame s' = currentFrame s /\
  emitted s' = emitted s /\
  nFramesProcessed (statsData s') = nFramesProcessed (statsData s).

(** ** The run loop as a transition system

    The worker thread is at the stop check at the head of the loop, inside
    the loop body, at the statements after the loop, or has left [run]:
    by returning, by an exception (the method has no handler), or never
    (blocked). *)
Inductive phase : Type :=
| LoopHead
| LoopBody
| AfterLoop
| Returned
| Died (e : exn)
| Hung.

Record Worker := mkWorker { pc : phase; self : ProcessingThreadModel }.

Definition settle (next : phase) (o : outcome unit) : Worker :=
  match o with
  | Done _ s => mkWorker next s
  | Raised e s => mkWorker (Died e) s
  | Blocked s => mkWorker Hung s
  end.

(** One step of the worker thread: the stop check (under [doStopMutex]),
    one loop body, or the statements after the loop.  The body is one step:
    the configuration methods wait for [processingMutex], which the body
    holds from the read of the buffer to the emission, and [stop] writes
    [doStop] only, which the body neither reads nor writes. *)
Definition worker_step (elapsed : Z) (raw : Mat Pixel) (w : Worker)
    : Worker :=
  match pc w with
  | LoopHead =>
      if doStop (self w)
      then mkWorker AfterLoop (set_doStop false (self w))
      else mkWorker LoopBody (self w)
  | LoopBody => settle LoopHead (iteration elapsed raw (self w))
  | AfterLoop => settle Returned (after_loop (self w))
  | Returned | Died _ | Hung => w
  end.

(** A call of the controller thread; it runs on the same object and
    leaves the worker where it is. *)
Definition call (m : M unit) (w : Worker) : Worker :=
  match m (self w) with
  | Done _ s | Raised _ s | Blocked s => mkWorker (pc w) s
  end.

(** What the two threads do, in the order the mutexes serialise it. *)
Inductive action : Type :=
| Step (elapsed : Z) (raw : Mat Pixel)
| CallStop
| CallSetROI (roi : QRect.t)
| CallUpdateFlags (f : ImageProcessingFlags)
| CallUpdateSettings (p : ImageProcessingSettings).

Definition act (a : action) (w : Worker) : Worker :=
  match a with
  | Step elapsed raw => worker_step elapsed raw w
  | CallStop => call stop w
  | CallSetROI roi => call (setROI roi) w
  | CallUpdateFlags f => call (updateImageProcessingFlags f) w
  | CallUpdateSettings p => call (updateImageProcessingSettings p) w
  end.

Fixpoint exec (sched : list action) (w : Worker) : Worker :=
  match sched with
  | [] => w
  | a :: rest => exec rest (act a w)
  end.

Definition is_newFrame (sig : Signal) : bool :=
  match sig with newFrame _ => true | _ => false end.

Definition is_stop (a : action) : bool :=
  match a with CallStop => true | _ => false end.

(** The worker is inside the loop. *)
Definition running (w : Worker) : Prop :=
  pc w = LoopHead \/ pc w = LoopBody.


(** The elapsed time of the first worker step of a schedule. *)
Fixpoint first_elapsed (sched : list action) : option Z :=
  match sched with
  | [] => None
  | Step elapsed _ :: _ => Some elapsed
  | _ :: rest => first_elapsed rest
  end.

(** The processing time the loop has saved when it is left after a stop
    request on [w]: that of the iteration in flight, which the first worker
    step of the schedule completes, or the one saved before when the worker
    is at the stop check. *)
Definition exit_sample (w : Worker) (sched : list action) : Z :=
  match pc w, first_elapsed sched with
  | LoopBody, Some elapsed => elapsed
  | _, _ => processingTime (self w)
  end.



(** ** Further notions for the properties of the code *)

(** The average [updateFPS] publishes from a full window of elapsed
    times. *)
Definition window_average (w : list Z) : pyfloat :=
  float_truediv (fold_left float_add (map (int_truediv 1000) w) float_zero) N.

(** The image processing steps as functions of the flags, the settings and
    the frame they are given, in the order of [run]. *)
Definition to_gray (flags : ImageProcessingFlags) (m : Mat Pixel)
    : exn + Mat Pixel :=
  if grayscaleOn flags then
    match channels m with
    | None => inl IndexError
    | Some c => if (c =? 3) || (c =? 4) then cvtColor_BGR2GRAY m else inr m
    end
  else inr m.

Definition to_smooth (flags : ImageProcessingFlags)
    (p : ImageProcessingSettings) (m : Mat Pixel) : exn + Mat Pixel :=
  if smoothOn flags then
    if smoothType p =? 0 then blur m (smoothParam1 p) (smoothParam2 p)
    else if smoothType p =? 1 then
      GaussianBlur m (smoothParam1 p) (smoothParam2 p)
        (smoothParam3 p) (smoothParam4 p)
    else if smoothType p =? 2 then medianBlur m (smoothParam1 p)
    else inr m
  else inr m.

Definition optional (on : bool) (f : Mat Pixel -> exn + Mat Pixel)
    (m : Mat Pixel) : exn + Mat Pixel :=
  if on then f m else inr m.

Definition transforms (flags : ImageProcessingFlags)
    (p : ImageProcessingSettings) : list (Mat Pixel -> exn + Mat Pixel) :=
  [ to_gray flags;
    to_smooth flags p;
    optional (dilateOn flags) (fun m => dilate m (dilateNumberOfIterations p));
    optional (erodeOn flags) (fun m => erode m (erodeUrlOfIterations p));
    optional (flipOn flags) (fun m => flip m (flipCode p));
    optional (cannyOn flags)
      (fun m => Canny m (cannyThreshold1 p) (cannyThreshold2 p)
                  (cannyApertureSize p) (cannyL2gradient p));
    optional (speedOn flags) putText_speed ].

(** The steps applied one after the other: the final frame, or the
    exception of the first step that raises with the frame it was given. *)
Fixpoint apply_all (fs : list (Mat Pixel -> exn + Mat Pixel)) (m : Mat Pixel)
    : (exn * Mat Pixel) + Mat Pixel :=
  match fs with
  | [] => inr m
  | f :: rest =>
      match f m with
      | inl e => inl (e, m)
      | inr m' => apply_all rest m'
      end
  end.

(** Where a worker that started from [w0] inside the loop can be, whatever
    the two threads have done since. *)
Definition in_run (w0 w : Worker) : Prop :=
  exists frames,
    forallb is_newFrame frames = true /\
    match pc w with
    | LoopHead | LoopBody | AfterLoop | Died _ =>
        emitted (self w) = emitted (self w0) ++ frames /\
        estimator (self w) = estimator (self w0)
    | Returned =>
        exists t s1,
          updateFPS t (self w0) = Done tt s1 /\
          statsData (self w) =
            mkStats (averageFPS (statsData s1))
              (nFramesProcessed (statsData (self w0)) + 1) /\
          emitted (self w) =
            emitted (self w0) ++ frames ++
            [updateStatisticsInGUI (statsData (self w))]
    | Hung => False
    end.

(** The worker thread on its own: per reading of the timer and the buffer
    one stop check and one loop body. *)
Definition alone (inputs : list (Z * Mat Pixel)) : list action :=
  flat_map (fun i => [Step (fst i) (snd i); Step (fst i) (snd i)]) inputs.

(** Where a worker can be when [stop] was called on [w0] at the stop
    check. *)
Definition stopped_at_check (w0 w : Worker) : Prop :=
  match pc w with
  | LoopHead =>
      doStop (self w) = true /\ emitted (self w) = emitted (self w0)
  | AfterLoop => emitted (self w) = emitted (self w0)
  | Returned =>
      emitted (self w) =
      emitted (self w0) ++ [updateStatisticsInGUI (statsData (self w))]
  | LoopBody | Died _ | Hung => False
  end.

End Model.

Arguments Done {fl img A} _ _.
Arguments Raised {fl img A} _ _.
Arguments Blocked {fl img A} _.

(** ** Instances to run the model on *)

(** The window length of the specification's scenarios. *)
Definition window32 : Config := {| PROCESSING_FPS_STAT_QUEUE_LENGTH := 32 |}.

(** Window lengths a configuration should not have. *)
Definition window0 : Config := {| PROCESSING_FPS_STAT_QUEUE_LENGTH := 0 |}.
Definition window_negative : Config :=
  {| PROCESSING_FPS_STAT_QUEUE_LENGTH := -1 |}.

(** CPython floats are IEEE 754 binary64, as Rocq's primitive floats.  The
    conversion is exact for integers below 2^53 in absolute value, where
    the two divisions agree with Python's. *)
Definition float_of_Z (z : Z) : PrimFloat.float :=
  if z <? 0 then PrimFloat.opp (PrimFloat.of_uint63 (Uint63.of_Z (- z)))
  else PrimFloat.of_uint63 (Uint63.of_Z z).

Definition binary64 : PyFloat := {|
  pyfloat := PrimFloat.float;
  float_zero := PrimFloat.zero;
  float_add := PrimFloat.add;
  int_truediv := fun a b => PrimFloat.div (float_of_Z a) (float_of_Z b);
  float_truediv := fun x n => PrimFloat.div x (float_of_Z n)
|}.

(** An imaging interface without a working OpenCV: every call into the
    binding raises, and [matToQImage] hands the array over as it is.  It
    runs the paths of the loop that do not reach the binding. *)
Definition no_opencv : Imaging := {|
  Pixel := list Z;
  QImage := Mat (list Z);
  cvtColor_BGR2GRAY := fun _ => inl cv2_error;
  blur := fun _ _ _ => inl cv2_error;
  GaussianBlur := fun _ _ _ _ _ => inl cv2_error;
  medianBlur := fun _ _ => inl cv2_error;
  dilate := fun _ _ => inl cv2_error;
  erode := fun _ _ => inl cv2_error;
  flip := fun _ _ => inl cv2_error;
  Canny := fun _ _ _ _ _ => inl cv2_error;
  putText_speed := fun _ => inl cv2_error;
  matToQImage := fun m => inr m
|}.

(** An imaging interface that records the calls of the binding: each call
    puts a row in front of the frame, of one pixel that holds the number of
    the step (1 grayscale, 2 smoothing, 3 dilate, 4 erode, 5 flip, 6 Canny,
    7 overlay) and the arguments of the call.  The grayscale conversion
    returns a 2-D array, and [medianBlur] refuses an even kernel size, as
    [cv2] does. *)
Definition traced (code : Z) (args : list Z) (m : Mat (list Z))
    : exn + Mat (list Z) :=
  inr (mkMat ([code :: args] :: rows m) (channels m)).

Definition tracing : Imaging := {|
  Pixel := list Z;
  QImage := Mat (list Z);
  cvtColor_BGR2GRAY := fun m => inr (mkMat ([[1]] :: rows m) None);
  blur := fun m a b => traced 2 [0; a; b] m;
  GaussianBlur := fun m a b c d => traced 2 [1; a; b; c; d] m;
  medianBlur := fun m k =>
    if Z.even k then inl cv2_error else traced 2 [2; k] m;
  dilate := fun m n => traced 3 [n] m;
  erode := fun m n => traced 4 [n] m;
  flip := fun m c => traced 5 [c] m;
  Canny := fun m a b c l => traced 6 [a; b; c; if l then 1 else 0] m;
  putText_speed := fun m => traced 7 [] m;
  matToQImage := fun m => inr m
|}.

(** ** Test objects *)

Module Sample.

#[local] Existing Instances window32 binary64 no_opencv.

Definition settings0 : ImageProcessingSettings :=
  mkSettings 0 3 3 0 0 1 1 0 50 150 3 false.

(** A freshly constructed object, every flag off. *)
Definition fresh : ProcessingThreadModel :=
  init all_off settings0 (mkStats PrimFloat.zero 0).

(** A 100x100 frame with three channels, as a capture delivers it. *)
Definition bgr_100x100 : Mat Pixel :=
  mkMat (repeat (repeat [10; 20; 30] 100) 100) (Some 3).

(** A 2x2 single-channel frame as numpy holds it: a 2-D array. *)
Definition gray_2x2 : Mat Pixel :=
  mkMat [[[10]; [20]]; [[30]; [40]]] None.

(** The object after [setROI(QRect(0, 0, 50, 50))]. *)
Definition with_roi : ProcessingThreadModel :=
  set_currentROI (QRect.make 0 0 50 50) fresh.

(** The object with the grayscale flag on, region (0, 0, 2, 2). *)
Definition grayscale_only : ProcessingThreadModel :=
  set_imgProcFlags (mkFlags true false false false false false false)
    (set_currentROI (QRect.make 0 0 2 2) fresh).

(** The object with median smoothing on and an even kernel size, which
    [cv2.medianBlur] refuses. *)
Definition median_even : ProcessingThreadModel :=
  set_imgProcSettings (mkSettings 2 4 3 0 0 1 1 0 50 150 3 false)
    (set_imgProcFlags (mkFlags false true false false false false false)
       with_roi).

(** A rectangle wider than the 100x100 frame. *)
Definition too_wide : QRect.t := QRect.make 0 0 200 50.

(** Three loop iterations, the last two with 20 ms on the timer: each is
    a stop check followed by the loop body. *)
Definition three_iterations : list action :=
  [Step 0 bgr_100x100; Step 0 bgr_100x100;
   Step 0 bgr_100x100; Step 20 bgr_100x100;
   Step 0 bgr_100x100; Step 20 bgr_100x100].

(** Five rows that end ten rows above the bottom edge. *)
Definition from_bottom : QRect.t := QRect.make 0 (-15) 50 5.

(** Smoothing switched on with a kind the loop does not know. *)
Definition unknown_smoothing : ProcessingThreadModel :=
  set_imgProcSettings (mkSettings 7 3 3 0 0 1 1 0 50 150 3 false)
    (set_imgProcFlags (mkFlags false true false false false false false)
       (set_currentFrame (Some bgr_100x100) with_roi)).

(** Two full windows of 32 samples and two samples more. *)
Definition two_windows : list (list Z) := [repeat 20 32; repeat 25 32].

(** The readings of two iterations. *)
Definition two_frames : list (Z * Mat Pixel) :=
  [(0, bgr_100x100); (20, bgr_100x100)].

(** The conversion of [no_opencv]. *)
Definition as_qimage (m : Mat Pixel) : QImage := m.

(** The worker in the loop body, told to stop while the iteration that
    finds 20 ms on the timer is in flight: the body, the stop check, the
    statements after the loop. *)
Definition stop_in_flight : list action :=
  [Step 20 bgr_100x100; Step 0 bgr_100x100; Step 0 bgr_100x100].

(** The grayscale flag is switched off before the 2-D frame is read. *)
Definition flags_off_first : list action :=
  [CallUpdateFlags all_off; Step 20 gray_2x2; Step 0 gray_2x2;
   Step 20 gray_2x2].

End Sample.

(** ** Test objects on the recording interface *)

Module Traced.

#[local] Existing Instances window32 binary64 tracing.

(** A 1x1 frame with three channels. *)
Definition pixel : Mat Pixel := mkMat [[[10; 20; 30]]] (Some 3).

(** Every flag on, Gaussian smoothing. *)
Definition all_on : ProcessingThreadModel :=
  set_currentFrame (Some pixel)
    (set_imgProcSettings (mkSettings 1 3 5 0 0 2 4 (-1) 50 150 3 true)
       (set_imgProcFlags (mkFlags true true true true true true true)
          (init all_off (mkSettings 0 0 0 0 0 0 0 0 0 0 0 false)
             (mkStats PrimFloat.zero 0)))).

(** Every flag on, median smoothing with the even kernel size 4. *)
Definition all_on_median_even : ProcessingThreadModel :=
  set_imgProcSettings (mkSettings 2 4 5 0 0 2 4 (-1) 50 150 3 true) all_on.

End Traced.

(** * Properties *)

Section Properties.

Context {cfg : Config} {fl : PyFloat} {img : Imaging}.

Ltac step_updateFPS :=
  unfold updateFPS, record_sample, evict_oldest, publish_batch, average,
    qsize, fps_empty, fps_put,
    fps_get, when, bind, ret, raise, gets, modify in *;
  cbn in *.

(** ** The rate estimator *)

(** The draining loop empties the queue and adds its samples to
    [fpsSum], oldest first. *)
Lemma drain_spec (n : nat) (s : ProcessingThreadModel) :
  n = length (fps s) ->
  drain n s =
  Done tt (set_fps [] (set_fpsSum (fold_left float_add (fps s) (fpsSum s)) s)).
Proof.
  revert s. induction n as [|n IH]; intros s Hn.
  - destruct s as [? ? ? ? q ? ? ? ? ? ? ?]; cbn in *.
    destruct q; [reflexivity | discriminate].
  - destruct s as [? ? ? ? q ? ? ? ? ? ? ?]; cbn in *.
    destruct q as [|v q]; [discriminate|].
    step_updateFPS. rewrite IH by (cbn; congruence). reflexivity.
Qed.

Lemma updateFPS_nonpositive (t : Z) (s : ProcessingThreadModel) :
  t <= 0 -> estimator_inv s -> updateFPS t s = Done tt s.
Proof.
  intros Ht (Hn & Hlt & _).
  destruct s as [? ? sn ? q ? ? ? ? ? ? ?]; step_updateFPS.
  destruct (Z.ltb_spec 0 t); [lia|]. cbn.
  destruct (Z.ltb_spec N (Z.of_nat (length q))); [lia|]. cbn.
  destruct (Z.eqb_spec (Z.of_nat (length q)) N); [lia|]. reflexivity.
Qed.

Lemma updateFPS_below (t : Z) (s : ProcessingThreadModel) :
  0 < t -> estimator_inv s -> Z.of_nat (length (fps s)) + 1 < N ->
  updateFPS t s =
  Done tt (set_sampleNumber (sampleNumber s + 1)
             (set_fps (fps s ++ [int_truediv 1000 t]) s)).
Proof.
  intros Ht (Hn & Hlt & _) Hroom.
  destruct s as [? ? sn ? q ? ? ? ? ? ? ?]; step_updateFPS.
  destruct (Z.ltb_spec 0 t); [|lia]. cbn.
  rewrite length_app; cbn.
  destruct (Z.ltb_spec N (Z.of_nat (length q + 1))); [lia|]. cbn.
  rewrite length_app; cbn.
  destruct (Z.eqb_spec (Z.of_nat (length q + 1)) N); [lia|]. reflexivity.
Qed.

Lemma updateFPS_full (t : Z) (s : ProcessingThreadModel) :
  0 < t -> estimator_inv s -> Z.of_nat (length (fps s)) + 1 = N ->
  updateFPS t s = Done tt (published (fps s ++ [int_truediv 1000 t]) s).
Proof.
  intros Ht (Hn & Hlt & Hsum) Hroom.
  destruct s as [? ? sn sum q ? ? ? ? ? ? ?]; step_updateFPS.
  destruct (Z.ltb_spec 0 t); [|lia]. cbn.
  rewrite length_app; cbn.
  destruct (Z.ltb_spec N (Z.of_nat (length q + 1))); [lia|]. cbn.
  rewrite length_app; cbn.
  destruct (Z.eqb_spec (Z.of_nat (length q + 1)) N); [|lia].
  destruct (Z.eqb_spec (sn + 1) N); [|lia]. cbn.
  rewrite drain_spec by (cbn; now rewrite length_app). cbn.
  destruct (Z.eqb_spec N 0); [lia|]. subst sum. reflexivity.
Qed.

Lemma evicts_inv (t : Z) (s : ProcessingThreadModel) :
  estimator_inv s -> evicts t s = false.
Proof.
  intros (Hn & Hlt & _). unfold evicts.
  destruct s as [? ? sn ? q ? ? ? ? ? ? ?]; step_updateFPS.
  destruct (0 <? t); cbn; [rewrite length_app; cbn|];
    apply Z.ltb_ge; lia.
Qed.

Lemma publishes_inv (t : Z) (s : ProcessingThreadModel) :
  estimator_inv s ->
  publishes t s = (0 <? t) && (Z.of_nat (length (fps s)) + 1 =? N).
Proof.
  intros (Hn & Hlt & _). unfold publishes.
  destruct s as [? ? sn ? q ? ? ? ? ? ? ?]; step_updateFPS.
  destruct (Z.ltb_spec 0 t); cbn.
  - rewrite length_app; cbn.
    destruct (Z.ltb_spec N (Z.of_nat (length q + 1))); [lia|]. cbn.
    rewrite length_app; cbn.
    destruct (Z.eqb_spec (Z.of_nat (length q + 1)) N),
      (Z.eqb_spec (Z.of_nat (length q) + 1) N),
      (Z.eqb_spec (sn + 1) N); cbn; try reflexivity; lia.
  - destruct (Z.ltb_spec N (Z.of_nat (length q))); [lia|]. cbn.
    destruct (Z.eqb_spec (Z.of_nat (length q)) N); [lia|]. reflexivity.
Qed.

(** A call keeps the invariant and returns, whatever the sample. *)
Lemma updateFPS_inv (t : Z) (s : ProcessingThreadModel) :
  0 < N -> estimator_inv s ->
  exists s', updateFPS t s = Done tt s' /\ estimator_inv s'.
Proof.
  intros HN Hinv. pose proof Hinv as (Hn & Hlt & Hsum).
  destruct (Z_lt_le_dec 0 t) as [Ht|Ht].
  - destruct (Z.eq_dec (Z.of_nat (length (fps s)) + 1) N) as [Hfull|Hroom].
    + eexists; split; [apply updateFPS_full; assumption|].
      destruct s; cbn in *. repeat split; cbn; lia || reflexivity.
    + eexists; split; [apply updateFPS_below; try assumption; lia|].
      destruct s; cbn in *.
      repeat split; cbn; rewrite ?length_app; cbn; try lia; assumption.
  - exists s; split; [apply updateFPS_nonpositive; assumption | assumption].
Qed.

Lemma feed_app (a b : list Z) (s : ProcessingThreadModel) :
  feed (a ++ b) s =
  match feed a s with
  | Done _ s' => feed b s'
  | Raised e s' => Raised e s'
  | Blocked s' => Blocked s'
  end.
Proof.
  revert s; induction a as [|t a IH]; intros s; cbn; [reflexivity|].
  unfold bind. destruct (updateFPS t s); auto.
Qed.

Lemma publications_app (a b : list Z) (s : ProcessingThreadModel) :
  publications (a ++ b) s =
  (publications a s +
   match feed a s with Done _ s' => publications b s' | _ => 0 end)%nat.
Proof.
  revert s; induction a as [|t a IH]; intros s; cbn; [reflexivity|].
  unfold bind. destruct (updateFPS t s); rewrite ?IH; lia.
Qed.

(** Positive samples that do not fill the window are queued and counted,
    and nothing is published. *)
Lemma feed_below (ts : list Z) (s : ProcessingThreadModel) :
  Forall (fun t => 0 < t) ts -> estimator_inv s ->
  Z.of_nat (length (fps s)) + Z.of_nat (length ts) < N ->
  exists s',
    feed ts s = Done tt s' /\
    fps s' = fps s ++ map (int_truediv 1000) ts /\
    sampleNumber s' = sampleNumber s + Z.of_nat (length ts) /\
    fpsSum s' = fpsSum s /\
    statsData s' = statsData s /\
    publications ts s = 0%nat.
Proof.
  intros Hpos; revert s.
  induction Hpos as [|t ts Ht Hpos IH]; intros s Hinv Hroom.
  - exists s; cbn. rewrite app_nil_r. repeat split; lia.
  - cbn [length] in Hroom.
    pose proof Hinv as (Hn & Hlt & Hsum).
    assert (Hstep := updateFPS_below t s Ht Hinv ltac:(lia)).
    set (s1 := set_sampleNumber _ _) in Hstep.
    assert (Hinv1 : estimator_inv s1).
    { subst s1; destruct s; cbn in *.
      repeat split; cbn; rewrite ?length_app; cbn; try lia; assumption. }
    destruct (IH s1 Hinv1) as (s' & Hfeed & Hq & Hk & Hs & Hd & Hp).
    { subst s1; destruct s; cbn in *. rewrite length_app; cbn. lia. }
    exists s'. cbn [feed publications]. unfold bind. rewrite Hstep, Hfeed, Hp.
    rewrite publishes_inv by assumption.
    destruct (Z.eqb_spec (Z.of_nat (length (fps s)) + 1) N); [lia|].
    rewrite andb_false_r.
    subst s1; destruct s; cbn in *.
    rewrite Hq, Hk, Hs, Hd, <- app_assoc. cbn.
    repeat split; lia.
Qed.

(** C1. Batch average update.  From an empty queue, a sample counter of
    zero and a zero running sum: fewer than N positive samples leave the
    published statistics as they were and no call publishes; exactly N
    positive samples publish once, the published average is the sum of
    the rates [1000 / t], added in arrival order, divided by N, and the
    sample counter is zero again. *)
Theorem updateFPS_batch_average (s : ProcessingThreadModel) :
  0 < N -> fps s = [] -> sampleNumber s = 0 -> fpsSum s = float_zero ->
  (forall ts, Forall (fun t => 0 < t) ts -> Z.of_nat (length ts) < N ->
     exists s', feed ts s = Done tt s' /\
                statsData s' = statsData s /\
                publications ts s = 0%nat) /\
  (forall ts, Forall (fun t => 0 < t) ts -> Z.of_nat (length ts) = N ->
     exists s', feed ts s = Done tt s' /\
                averageFPS (statsData s') =
                  float_truediv
                    (fold_left float_add (map (int_truediv 1000) ts)
                       float_zero) N /\
                sampleNumber s' = 0 /\
                fps s' = [] /\
                publications ts s = 1%nat).
Proof.
  intros HN Hq Hk Hsum.
  assert (Hinv : estimator_inv s) by (unfold estimator_inv; rewrite Hq, Hk; cbn; auto).
  split; intros ts Hpos Hlen.
  - destruct (feed_below ts s Hpos Hinv) as (s' & Hfeed & _ & _ & _ & Hd & Hp).
    { rewrite Hq; cbn; lia. }
    exists s'; auto.
  - destruct (exists_last (l := ts)) as (ts0 & t & ->).
    { intros ->; cbn in Hlen; lia. }
    rewrite length_app in Hlen; cbn in Hlen.
    apply Forall_app in Hpos as [Hpos0 Ht]. inversion Ht as [|? ? Ht0 _]; subst.
    destruct (feed_below ts0 s Hpos0 Hinv)
      as (s0 & Hfeed & Hq0 & Hk0 & Hs0 & Hd0 & Hp0).
    { rewrite Hq; cbn; lia. }
    rewrite Hq in Hq0; cbn in Hq0.
    assert (Hinv0 : estimator_inv s0).
    { unfold estimator_inv. rewrite Hq0, Hk0, Hs0, Hk, length_map.
      repeat split; try lia; assumption. }
    assert (Hfull : Z.of_nat (length (fps s0)) + 1 = N).
    { rewrite Hq0, length_map. lia. }
    exists (published (fps s0 ++ [int_truediv 1000 t]) s0).
    rewrite feed_app, publications_app, Hfeed, Hp0. cbn [feed publications].
    unfold bind. rewrite (updateFPS_full t s0 Ht0 Hinv0 Hfull).
    rewrite publishes_inv by assumption.
    destruct (Z.ltb_spec 0 t); [|lia].
    destruct (Z.eqb_spec (Z.of_nat (length (fps s0)) + 1) N); [|lia].
    rewrite Hq0, map_app. cbn. auto.
Qed.

(** C7. A non-positive sample is not recorded: the call returns, the
    queue afterwards is a tail of the queue before (nothing was put) and
    the sample counter has not advanced; between two calls of the
    estimator the call changes nothing at all. *)
Theorem updateFPS_nonpositive_not_recorded
    (t : Z) (s : ProcessingThreadModel) :
  t <= 0 -> 0 < N ->
  exists s',
    updateFPS t s = Done tt s' /\
    (exists gone, fps s = gone ++ fps s') /\
    sampleNumber s' <= sampleNumber s /\
    (estimator_inv s -> s' = s).
Proof.
  intros Ht HN.
  assert (Hfin : forall (s1 s2 : ProcessingThreadModel) gone,
            fps s = gone ++ fps s1 -> sampleNumber s1 = sampleNumber s ->
            (estimator_inv s -> s1 = s) ->
            (if (Z.of_nat (length (fps s1)) =? N) && (sampleNumber s1 =? N)
             then fps s2 = [] /\ sampleNumber s2 = 0
             else s2 = s1) ->
            (exists gone', fps s = gone' ++ fps s2) /\
            sampleNumber s2 <= sampleNumber s /\
            (estimator_inv s -> s2 = s)).
  { intros s1 s2 gone Hq Hk Hsame Hs2.
    destruct (Z.eqb_spec (Z.of_nat (length (fps s1))) N) as [Hlen|Hlen];
      cbn in Hs2.
    - destruct (Z.eqb_spec (sampleNumber s1) N) as [Hfull|Hfull].
      + destruct Hs2 as [-> ->]. split.
        * exists (gone ++ fps s1). now rewrite app_nil_r.
        * split; [lia|]. intros Hinv. pose proof (Hsame Hinv) as ->.
          destruct Hinv as (_ & Hlt & _). lia.
      + subst s2. split; [now exists gone|]. split; [lia | assumption].
    - subst s2. split; [now exists gone|]. split; [lia | assumption]. }
  destruct s as [ds pt sn sum q roi fg st sd fr cf em]; step_updateFPS.
  destruct (Z.ltb_spec 0 t); [lia|]. cbn.
  destruct (Z.ltb_spec N (Z.of_nat (length q))) as [Hover|Hfit]; cbn.
  - destruct q as [|v q]; [cbn in Hover; lia|]. cbn.
    pose (s1 := mkThread ds pt sn sum q roi fg st sd fr cf em).
    destruct ((Z.of_nat (length q) =? N) && (sn =? N)) eqn:Hb; cbn.
    + rewrite drain_spec by reflexivity. cbn.
      destruct (Z.eqb_spec N 0); [lia|]. cbn.
      eexists; split; [reflexivity|].
      apply (Hfin s1 _ [v]); cbn; auto.
      * intros (_ & Hlt & _); cbn [fps length] in *; lia.
      * rewrite Hb. split; reflexivity.
    + eexists; split; [reflexivity|].
      apply (Hfin s1 _ [v]); cbn; auto.
      * intros (_ & Hlt & _); cbn [fps length] in *; lia.
      * rewrite Hb. reflexivity.
  - pose (s1 := mkThread ds pt sn sum q roi fg st sd fr cf em).
    destruct ((Z.of_nat (length q) =? N) && (sn =? N)) eqn:Hb; cbn.
    + rewrite drain_spec by reflexivity. cbn.
      destruct (Z.eqb_spec N 0); [lia|]. cbn.
      eexists; split; [reflexivity|].
      apply (Hfin s1 _ []); cbn; auto.
      rewrite Hb. split; reflexivity.
    + eexists; split; [reflexivity|].
      apply (Hfin s1 _ []); cbn; auto.
      rewrite Hb. reflexivity.
Qed.

(** C10. The estimator's invariant: after any sequence of calls on a
    freshly constructed object the sample counter equals the queue
    length, both are at most N, and no further call, whatever its
    sample, takes the eviction branch. *)
Theorem updateFPS_counter_matches_queue
    (flags0 : ImageProcessingFlags) (settings0 : ImageProcessingSettings)
    (stats0 : ThreadStatisticsData) (ts : list Z) :
  0 < N ->
  exists s,
    feed ts (init flags0 settings0 stats0) = Done tt s /\
    sampleNumber s = Z.of_nat (length (fps s)) /\
    Z.of_nat (length (fps s)) <= N /\
    sampleNumber s <= N /\
    forall t, evicts t s = false.
Proof.
  intros HN.
  assert (Hreach : forall ts s, estimator_inv s ->
            exists s', feed ts s = Done tt s' /\ estimator_inv s').
  { clear ts. induction ts as [|t ts IH]; intros s Hinv.
    - exists s; auto.
    - destruct (updateFPS_inv t s HN Hinv) as (s1 & Hstep & Hinv1).
      destruct (IH s1 Hinv1) as (s' & Hfeed & Hinv').
      exists s'. cbn. unfold bind. rewrite Hstep. auto. }
  destruct (Hreach ts (init flags0 settings0 stats0)) as (s & Hfeed & Hinv).
  { unfold estimator_inv; cbn. repeat split; auto. }
  exists s. pose proof Hinv as (Hn & Hlt & _).
  repeat split; try assumption; try lia.
  intros t; apply evicts_inv; assumption.
Qed.

(** ** Configuration *)

(** C6. Whole-flags replacement: after [updateImageProcessingFlags f]
    each of the seven flags equals the flag of [f], and the region of
    interest and the settings are as before. *)
Theorem updateImageProcessingFlags_overwrites
    (f : ImageProcessingFlags) (s : ProcessingThreadModel) :
  exists s',
    updateImageProcessingFlags f s = Done tt s' /\
    grayscaleOn (imgProcFlags s') = grayscaleOn f /\
    smoothOn (imgProcFlags s') = smoothOn f /\
    dilateOn (imgProcFlags s') = dilateOn f /\
    erodeOn (imgProcFlags s') = erodeOn f /\
    flipOn (imgProcFlags s') = flipOn f /\
    cannyOn (imgProcFlags s') = cannyOn f /\
    speedOn (imgProcFlags s') = speedOn f /\
    currentROI s' = currentROI s /\
    imgProcSettings s' = imgProcSettings s.
Proof.
  eexists; split; [reflexivity|].
  cbn. repeat split; reflexivity.
Qed.

Lemma QRect_store (roi r : QRect.t) :
  QRect.setHeight (QRect.height roi)
    (QRect.setWidth (QRect.width roi)
       (QRect.setY (QRect.y roi) (QRect.setX (QRect.x roi) r))) = roi.
Proof.
  destruct roi as [a b c d], r as [a' b' c' d'].
  unfold QRect.setHeight, QRect.setWidth, QRect.setY, QRect.setX,
    QRect.height, QRect.width, QRect.x, QRect.y; cbn.
  f_equal; lia.
Qed.

Lemma QRect_make_self (r : QRect.t) :
  QRect.make (QRect.x r) (QRect.y r) (QRect.width r) (QRect.height r) = r.
Proof.
  destruct r as [a b c d].
  unfold QRect.make, QRect.height, QRect.width, QRect.x, QRect.y; cbn.
  f_equal; lia.
Qed.

Lemma setROI_run (roi : QRect.t) (s : ProcessingThreadModel) :
  setROI roi s = Done tt (set_currentROI roi s).
Proof.
  unfold setROI, on_roi, bind, modify. cbn.
  rewrite QRect_store. reflexivity.
Qed.

Lemma updateImageProcessingFlags_run
    (f : ImageProcessingFlags) (s : ProcessingThreadModel) :
  updateImageProcessingFlags f s = Done tt (set_imgProcFlags f s).
Proof. destruct f; reflexivity. Qed.

(** C3, as the code has it.  [setROI] checks nothing: whatever the
    rectangle, the call stores it as the current region of interest in
    place of the previous one, emits no signal and leaves every other
    attribute as it was. *)
Theorem setROI_stores_any_rectangle
    (roi : QRect.t) (s : ProcessingThreadModel) :
  setROI roi s = Done tt (set_currentROI roi s) /\
  getCurrentROI (set_currentROI roi s) = roi.
Proof.
  split; [apply setROI_run|].
  unfold getCurrentROI. cbn. apply QRect_make_self.
Qed.

(** ** The pipeline *)

Lemma quiet_refl (s : ProcessingThreadModel) : quiet s s.
Proof. unfold quiet, kept; intuition. Qed.

Lemma quiet_trans (a b c : ProcessingThreadModel) :
  quiet a b -> quiet b c -> quiet a c.
Proof. unfold quiet, kept; intuition congruence. Qed.

Lemma keeps_ret {A} (a : A) : keeps quiet (ret a).
Proof. intros s; apply quiet_refl. Qed.

Lemma keeps_raise {A} (e : exn) : keeps quiet (@raise _ _ A e).
Proof. intros s; apply quiet_refl. Qed.

Lemma keeps_gets {A} (f : ProcessingThreadModel -> A) : keeps quiet (gets f).
Proof. intros s; apply quiet_refl. Qed.

Lemma keeps_lift {A} (r : exn + A) : keeps quiet (lift r).
Proof. destruct r; intros s; apply quiet_refl. Qed.

Lemma keeps_bind {A B} (m : M A) (k : A -> M B) :
  keeps quiet m -> (forall a, keeps quiet (k a)) -> keeps quiet (bind m k).
Proof.
  intros Hm Hk s. unfold bind. specialize (Hm s).
  destruct (m s) as [a s1|e s1|s1]; [|assumption|assumption].
  specialize (Hk a s1). destruct (k a s1); try assumption;
    eapply quiet_trans; eassumption.
Qed.

Lemma keeps_when (b : bool) (m : M unit) :
  keeps quiet m -> keeps quiet (when b m).
Proof. destruct b; [trivial | intros _; apply keeps_ret]. Qed.

Lemma keeps_get_currentFrame : keeps quiet get_currentFrame.
Proof.
  intros s. unfold get_currentFrame.
  destruct (currentFrame s); apply quiet_refl.
Qed.

Lemma keeps_set_currentFrame (m : option (Mat Pixel)) :
  keeps quiet (modify (set_currentFrame m)).
Proof. intros s. cbn. unfold quiet, kept; cbn; intuition. Qed.

Lemma keeps_transform (f : Mat Pixel -> exn + Mat Pixel) :
  keeps quiet (transform f).
Proof.
  unfold transform.
  repeat (apply keeps_bind; [|intros ?]);
    auto using keeps_get_currentFrame, keeps_lift, keeps_set_currentFrame.
Qed.

Create HintDb frame_conditions.
Hint Resolve keeps_ret keeps_raise keeps_gets keeps_lift keeps_when
  keeps_get_currentFrame keeps_set_currentFrame keeps_transform
  : frame_conditions.

Ltac keeps_steps :=
  repeat first
    [ apply keeps_bind; [|intros ?]
    | apply keeps_when
    | match goal with |- keeps _ (if ?b then _ else _) => destruct b end
    | match goal with |- keeps _ (match ?o with _ => _ end) => destruct o end
    | solve [auto with frame_conditions] ].

(** The image processing writes [currentFrame] only, however it ends. *)
Lemma keeps_pipeline : keeps quiet pipeline.
Proof.
  unfold pipeline, grayscale_step, smooth_step, dilate_step, erode_step,
    flip_step, canny_step, speed_step, shape2.
  keeps_steps.
Qed.

(** With every flag off the pipeline does nothing at all. *)
Lemma pipeline_all_off (s : ProcessingThreadModel) :
  imgProcFlags s = all_off -> pipeline s = Done tt s.
Proof.
  intros Hoff.
  unfold pipeline, grayscale_step, smooth_step, dilate_step, erode_step,
    flip_step, canny_step, speed_step, bind, gets, when, ret.
  repeat (rewrite Hoff; cbn). reflexivity.
Qed.

Lemma In_firstn {A} (n : nat) (l : list A) (a : A) :
  In a (firstn n l) -> In a l.
Proof.
  intros Hin. rewrite <- (firstn_skipn n l). apply in_or_app; auto.
Qed.

Lemma In_skipn {A} (n : nat) (l : list A) (a : A) :
  In a (skipn n l) -> In a l.
Proof.
  intros Hin. rewrite <- (firstn_skipn n l). apply in_or_app; auto.
Qed.

(** A slice with both ends inside the sequence. *)
Lemma py_slice_inside {A} (a n : Z) (l : list A) :
  0 <= a -> 0 <= n -> a + n <= Z.of_nat (length l) ->
  py_slice a (a + n) l = firstn (Z.to_nat n) (skipn (Z.to_nat a) l).
Proof.
  intros Ha Hn Hlen. unfold py_slice, slice_index.
  destruct (Z.ltb_spec a 0); [lia|].
  destruct (Z.ltb_spec (a + n) 0); [lia|].
  rewrite !Z.min_l by lia.
  replace (a + n - a) with n by lia. reflexivity.
Qed.

Lemma crop_fits (r : QRect.t) (m : Mat Pixel) :
  roi_fits r m = true -> crop r m = sub_rectangle r m.
Proof.
  unfold roi_fits. rewrite !andb_true_iff, forallb_forall.
  intros (((((Hx & Hy) & Hw) & Hh) & Hrows) & Hcols).
  apply Z.leb_le in Hx, Hy, Hw, Hh, Hrows.
  unfold crop, sub_rectangle. f_equal.
  rewrite py_slice_inside by assumption.
  apply map_ext_in. intros row Hin.
  apply In_firstn, In_skipn, Hcols, Z.leb_le in Hin.
  apply py_slice_inside; assumption.
Qed.

Lemma iteration_unfold (elapsed : Z) (raw : Mat Pixel)
    (s : ProcessingThreadModel) :
  iteration elapsed raw s =
  match pipeline (set_currentFrame (Some (crop (currentROI s) raw))
                    (set_processingTime elapsed s)) with
  | Done _ s' =>
      match currentFrame s' with
      | Some m =>
          match matToQImage m with
          | inr q => Done tt (set_emitted (emitted s' ++ [newFrame q])
                                (set_frame (Some q) s'))
          | inl e => Raised e s'
          end
      | None => Raised AttributeError s'
      end
  | Raised e s' => Raised e s'
  | Blocked s' => Blocked s'
  end.
Proof.
  unfold iteration, bind, modify, gets, get_currentFrame, emit, lift.
  cbn. destruct (pipeline _) as [[] s'|e s'|s']; try reflexivity.
  destruct (currentFrame s'); [|reflexivity].
  destruct (matToQImage m); reflexivity.
Qed.

(** C4. Identity pipeline: with every flag off and a region of interest
    that fits the frame, one iteration leaves the sub-rectangle of the
    frame in [currentFrame] and emits its conversion to a [QImage]; if
    the conversion raises, that is the exception of the iteration. *)
Theorem identity_pipeline (elapsed : Z) (raw : Mat Pixel)
    (s : ProcessingThreadModel) :
  imgProcFlags s = all_off ->
  roi_fits (currentROI s) raw = true ->
  let cropped := sub_rectangle (currentROI s) raw in
  let s1 := set_currentFrame (Some cropped) (set_processingTime elapsed s) in
  crop (currentROI s) raw = cropped /\
  pipeline s1 = Done tt s1 /\
  iteration elapsed raw s =
  match matToQImage cropped with
  | inr q => Done tt (set_emitted (emitted s ++ [newFrame q])
                        (set_frame (Some q) s1))
  | inl e => Raised e s1
  end.
Proof.
  intros Hoff Hfit cropped s1.
  assert (Hcrop := crop_fits _ _ Hfit). fold cropped in Hcrop.
  assert (Hpipe : pipeline s1 = Done tt s1)
    by (apply pipeline_all_off; exact Hoff).
  repeat split; try assumption.
  rewrite iteration_unfold, Hcrop. fold s1. rewrite Hpipe. cbn.
  destruct (matToQImage cropped); reflexivity.
Qed.

(** The grayscale step on an array with a third dimension: converted
    when that dimension is 3 or 4, passed through otherwise. *)
Lemma grayscale_step_channels (m : Mat Pixel) (c : Z)
    (s : ProcessingThreadModel) :
  grayscaleOn (imgProcFlags s) = true ->
  currentFrame s = Some m -> channels m = Some c ->
  grayscale_step s =
  if (c =? 3) || (c =? 4) then transform cvtColor_BGR2GRAY s
  else Done tt s.
Proof.
  intros Hon Hm Hc.
  unfold grayscale_step, shape2, get_currentFrame, bind, gets, when, ret.
  rewrite Hon, Hm, Hc. destruct ((c =? 3) || (c =? 4)); reflexivity.
Qed.

(** The grayscale step on a 2-D array: [shape[2]] raises. *)
Lemma grayscale_step_2d (m : Mat Pixel) (s : ProcessingThreadModel) :
  grayscaleOn (imgProcFlags s) = true ->
  currentFrame s = Some m -> channels m = None ->
  grayscale_step s = Raised IndexError s.
Proof.
  intros Hon Hm Hc.
  unfold grayscale_step, shape2, get_currentFrame, bind, gets, raise.
  rewrite Hon, Hm, Hc. reflexivity.
Qed.

Lemma iteration_2d_raises (elapsed : Z) (raw : Mat Pixel)
    (s : ProcessingThreadModel) :
  grayscaleOn (imgProcFlags s) = true -> channels raw = None ->
  iteration elapsed raw s =
  Raised IndexError
    (set_currentFrame (Some (crop (currentROI s) raw))
       (set_processingTime elapsed s)).
Proof.
  intros Hon Hc. rewrite iteration_unfold.
  unfold pipeline, bind.
  erewrite grayscale_step_2d; [reflexivity | exact Hon | reflexivity | exact Hc].
Qed.

(** ** The run loop *)

(** With a positive window length [updateFPS] returns from every state,
    and writes the estimator's attributes only. *)
Lemma updateFPS_returns (t : Z) (s : ProcessingThreadModel) :
  0 < N ->
  exists s', updateFPS t s = Done tt s' /\ beside_estimator s s'.
Proof.
  intros HN.
  destruct s as [ds pt sn sum q roi fg st sd fr cf em]; step_updateFPS.
  destruct (0 <? t); cbn;
    match goal with
    | |- context [N <? ?len] => destruct (Z.ltb_spec N len) as [Hover|Hfit]
    end; cbn.
  all: try (destruct q as [|v q]; cbn in *; [lia|]).
  all: match goal with
       | |- context [(?a =? N) && (?b =? N)] =>
           destruct ((a =? N) && (b =? N))
       end; cbn.
  all: try (rewrite drain_spec by reflexivity; cbn;
            destruct (Z.eqb_spec N 0); [lia|]; cbn).
  all: eexists; split; [reflexivity|];
    unfold beside_estimator; cbn; repeat split; reflexivity.
Qed.

(** What [updateFPS] does to the estimator depends on the estimator
    only. *)
Lemma updateFPS_local (t : Z) (a b : ProcessingThreadModel) :
  0 < N -> estimator a = estimator b ->
  exists a' b',
    updateFPS t a = Done tt a' /\ updateFPS t b = Done tt b' /\
    estimator a' = estimator b'.
Proof.
  intros HN Heq.
  destruct a as [ds pt sn sum q roi fg st sd fr cf em],
           b as [ds' pt' sn' sum' q' roi' fg' st' sd' fr' cf' em'].
  unfold estimator in Heq; cbn in Heq.
  injection Heq as <- <- <- <-. step_updateFPS.
  destruct (0 <? t); cbn;
    match goal with
    | |- context [N <? ?len] => destruct (Z.ltb_spec N len) as [Hover|Hfit]
    end; cbn.
  all: try (destruct q as [|v q]; cbn in *; [lia|]).
  all: match goal with
       | |- context [(?x =? N) && (?y =? N)] =>
           destruct ((x =? N) && (y =? N))
       end; cbn.
  all: try (rewrite !drain_spec by reflexivity; cbn;
            destruct (Z.eqb_spec N 0); [lia|]; cbn).
  all: do 2 eexists; split; [reflexivity|]; split; reflexivity.
Qed.

Lemma after_loop_returns (s : ProcessingThreadModel) :
  0 < N ->
  exists s1,
    updateFPS (processingTime s) s = Done tt s1 /\
    beside_estimator s s1 /\
    let d := mkStats (averageFPS (statsData s1))
               (nFramesProcessed (statsData s) + 1) in
    after_loop s =
    Done tt (set_emitted (emitted s ++ [updateStatisticsInGUI d])
               (set_statsData d s1)).
Proof.
  intros HN.
  destruct (updateFPS_returns (processingTime s) s HN) as (s1 & Hupd & Hrest).
  exists s1. split; [assumption|]. split; [assumption|].
  unfold after_loop, bind, gets, modify, emit. rewrite Hupd. cbn.
  destruct Hrest as (_ & _ & _ & _ & _ & _ & _ & Hem & Hn).
  rewrite <- Hem, <- Hn. reflexivity.
Qed.

(** However an iteration ends, it has not touched the estimator, the
    configuration or the stop flag; it has emitted one frame if it
    returned and nothing if it raised; and it does end. *)
Lemma iteration_outcome (elapsed : Z) (raw : Mat Pixel)
    (s : ProcessingThreadModel) :
  match iteration elapsed raw s with
  | Done _ s' => kept s s' /\ exists q, emitted s' = emitted s ++ [newFrame q]
  | Raised _ s' => quiet s s'
  | Blocked _ => False
  end.
Proof.
  rewrite iteration_unfold.
  pose proof (keeps_pipeline
                (set_currentFrame (Some (crop (currentROI s) raw))
                   (set_processingTime elapsed s))) as Hp.
  destruct (pipeline _) as [[] s'|e s'|s']; [| exact Hp | exact Hp].
  destruct Hp as [Hkept Hem]. cbn in Hkept, Hem.
  destruct (currentFrame s') as [m|]; [|split; assumption].
  destruct (matToQImage m) as [e|q]; [split; assumption|].
  split; [exact Hkept|]. exists q. cbn. rewrite Hem. reflexivity.
Qed.

Lemma kept_estimator (s s' : ProcessingThreadModel) :
  kept s s' -> estimator s' = estimator s.
Proof.
  intros (_ & Hk & Hsum & Hq & _ & _ & _ & Hd).
  unfold estimator. congruence.
Qed.


(** A worker that left [run] by an exception stays where it is. *)
Lemma dead_exec (e : exn) (sched : list action) :
  forall w : Worker,
    pc w = Died e ->
    pc (exec sched w) = Died e /\
    emitted (self (exec sched w)) = emitted (self w).
Proof.
  induction sched as [|a sched IH]; intros w Hpc; [auto|].
  cbn [exec].
  assert (Hact : pc (act a w) = Died e /\
                 emitted (self (act a w)) = emitted (self w)).
  { destruct w as [p s]; cbn in Hpc; subst p.
    destruct a; cbn; unfold call;
      rewrite ?setROI_run, ?updateImageProcessingFlags_run; cbn; auto. }
  destruct Hact as [Hpc' Hem'].
  destruct (IH _ Hpc') as [Hpc'' Hem'']. split; congruence.
Qed.

(** ** More on the rate estimator *)

(** One full window of positive samples from an empty estimator. *)
Lemma feed_window (w : list Z) (s : ProcessingThreadModel) :
  0 < N -> fps s = [] -> sampleNumber s = 0 -> fpsSum s = float_zero ->
  Forall (fun t => 0 < t) w -> Z.of_nat (length w) = N ->
  exists s',
    feed w s = Done tt s' /\
    fps s' = [] /\ sampleNumber s' = 0 /\ fpsSum s' = float_zero /\
    statsData s' =
      mkStats (window_average w) (nFramesProcessed (statsData s)) /\
    publications w s = 1%nat.
Proof.
  intros HN Hq Hk Hsum Hpos Hlen.
  assert (Hinv : estimator_inv s)
    by (unfold estimator_inv; rewrite Hq, Hk; cbn; auto).
  destruct (exists_last (l := w)) as (w0 & t & ->).
  { intros ->; cbn in Hlen; lia. }
  rewrite length_app in Hlen; cbn in Hlen.
  apply Forall_app in Hpos as [Hpos0 Ht]. inversion Ht as [|? ? Ht0 _]; subst.
  destruct (feed_below w0 s Hpos0 Hinv)
    as (s0 & Hfeed & Hq0 & Hk0 & Hs0 & Hd0 & Hp0).
  { rewrite Hq; cbn; lia. }
  rewrite Hq in Hq0; cbn in Hq0.
  assert (Hinv0 : estimator_inv s0).
  { unfold estimator_inv. rewrite Hq0, Hk0, Hs0, Hk, length_map.
    repeat split; try lia; assumption. }
  assert (Hfull : Z.of_nat (length (fps s0)) + 1 = N).
  { rewrite Hq0, length_map. lia. }
  exists (published (fps s0 ++ [int_truediv 1000 t]) s0).
  rewrite feed_app, publications_app, Hfeed, Hp0. cbn [feed publications].
  unfold bind. rewrite (updateFPS_full t s0 Ht0 Hinv0 Hfull).
  rewrite publishes_inv by assumption.
  destruct (Z.ltb_spec 0 t); [|lia].
  destruct (Z.eqb_spec (Z.of_nat (length (fps s0)) + 1) N); [|lia].
  unfold window_average, published. cbn.
  rewrite Hq0, map_app, Hd0. cbn. repeat split; reflexivity.
Qed.

(** The estimator over a whole run of positive samples: any number of full
    windows followed by an incomplete one.  Each full window publishes
    once; the published average is that of the last full window (the
    previous value if there is none); the queue and the counter hold the
    incomplete window. *)
Theorem feed_windows (ws : list (list Z)) (r : list Z) :
  0 < N ->
  Forall (fun w => Z.of_nat (length w) = N /\ Forall (fun t => 0 < t) w) ws ->
  Forall (fun t => 0 < t) r -> Z.of_nat (length r) < N ->
  forall s : ProcessingThreadModel,
    fps s = [] -> sampleNumber s = 0 -> fpsSum s = float_zero ->
    exists s',
      feed (concat ws ++ r) s = Done tt s' /\
      fps s' = map (int_truediv 1000) r /\
      sampleNumber s' = Z.of_nat (length r) /\
      publications (concat ws ++ r) s = length ws /\
      averageFPS (statsData s') =
        match rev ws with
        | [] => averageFPS (statsData s)
        | w :: _ => window_average w
        end /\
      nFramesProcessed (statsData s') = nFramesProcessed (statsData s).
Proof.
  intros HN Hws Hr Hlen.
  induction Hws as [|w ws [Hw Hpos] Hws IH]; intros s Hq Hk Hsum.
  - cbn [concat app rev length].
    destruct (feed_below r s Hr) as (s' & Hfeed & Hq' & Hk' & _ & Hd & Hp).
    { unfold estimator_inv; rewrite Hq, Hk; cbn; auto. }
    { rewrite Hq; cbn; lia. }
    exists s'. rewrite Hq in Hq'. rewrite Hk in Hk'. rewrite Hd.
    repeat split; auto.
  - destruct (feed_window w s HN Hq Hk Hsum Hpos Hw)
      as (s1 & Hfeed1 & Hq1 & Hk1 & Hsum1 & Hd1 & Hp1).
    destruct (IH s1 Hq1 Hk1 Hsum1)
      as (s' & Hfeed & Hq' & Hk' & Hp & Havg & Hn).
    exists s'. cbn [concat length rev]. rewrite <- app_assoc.
    rewrite feed_app, publications_app, Hfeed1, Hp1, Hfeed, Hp.
    rewrite Hd1 in Havg, Hn. cbn in Havg, Hn.
    repeat split; auto.
    rewrite Havg. destruct (rev ws); reflexivity.
Qed.

(** Non-positive samples are transparent: in any sequence of calls between
    which the estimator is at rest, leaving them out changes neither the
    resulting state nor the number of publications. *)
Theorem feed_ignores_nonpositive (ts : list Z) :
  0 < N ->
  forall s : ProcessingThreadModel,
    estimator_inv s ->
    feed ts s = feed (filter (fun t => 0 <? t) ts) s /\
    publications ts s = publications (filter (fun t => 0 <? t) ts) s.
Proof.
  intros HN. induction ts as [|t ts IH]; intros s Hinv; [split; reflexivity|].
  cbn [filter]. destruct (Z.ltb_spec 0 t) as [Ht|Ht].
  - destruct (updateFPS_inv t s HN Hinv) as (s1 & Hstep & Hinv1).
    destruct (IH s1 Hinv1) as [Hfeed Hpub].
    cbn [feed publications]. unfold bind. rewrite Hstep, Hfeed, Hpub.
    split; reflexivity.
  - destruct (IH s Hinv) as [Hfeed Hpub].
    cbn [feed publications]. unfold bind.
    rewrite (updateFPS_nonpositive t s Ht Hinv), publishes_inv by assumption.
    destruct (Z.ltb_spec 0 t); [lia|]. cbn. split; assumption.
Qed.

(** A window length that is not positive: on an empty estimator a call
    with a non-positive sample raises [ZeroDivisionError] when the length
    is zero and waits for ever on the empty queue when it is negative. *)
Theorem updateFPS_window_not_positive (t : Z) (s : ProcessingThreadModel) :
  N <= 0 -> t <= 0 -> fps s = [] -> sampleNumber s = 0 ->
  updateFPS t s = if N =? 0 then Raised ZeroDivisionError s else Blocked s.
Proof.
  intros HN Ht Hq Hk.
  destruct s as [ds pt sn sum q roi fg st sd fr cf em]; cbn in Hq, Hk; subst.
  step_updateFPS. unfold N in *.
  destruct (Z.ltb_spec 0 t); [lia|]. cbn.
  destruct (Z.eqb_spec PROCESSING_FPS_STAT_QUEUE_LENGTH 0) as [H0|H0].
  - rewrite H0. reflexivity.
  - destruct (Z.ltb_spec PROCESSING_FPS_STAT_QUEUE_LENGTH 0);
      [reflexivity | lia].
Qed.

(** [updateFPS] writes the estimator only.  With a positive window length
    the call returns from every state; the stop flag, the saved processing
    time, the configuration, both frames, the emitted signals and the frame
    counter are as before. *)
Theorem updateFPS_writes_estimator_only (t : Z) (s : ProcessingThreadModel) :
  0 < N ->
  exists s',
    updateFPS t s = Done tt s' /\
    doStop s' = doStop s /\ processingTime s' = processingTime s /\
    currentROI s' = currentROI s /\ imgProcFlags s' = imgProcFlags s /\
    imgProcSettings s' = imgProcSettings s /\
    frame s' = frame s /\ currentFrame s' = currentFrame s /\
    emitted s' = emitted s /\
    nFramesProcessed (statsData s') = nFramesProcessed (statsData s).
Proof.
  intros HN. destruct (updateFPS_returns t s HN) as (s' & Hrun & Hrest).
  exists s'. split; [exact Hrun | exact Hrest].
Qed.

(** ** More on the crop *)

(** A slice that starts at a non-negative index is cut off at the end of
    the sequence, as [firstn] and [skipn] are. *)
Lemma py_slice_nonnegative {A} (a n : Z) (l : list A) :
  0 <= a -> 0 <= n ->
  py_slice a (a + n) l = firstn (Z.to_nat n) (skipn (Z.to_nat a) l).
Proof.
  intros Ha Hn. unfold py_slice, slice_index.
  destruct (Z.ltb_spec a 0); [lia|].
  destruct (Z.ltb_spec (a + n) 0); [lia|].
  destruct (Z_le_gt_dec (a + n) (Z.of_nat (length l))) as [Hin|Hout].
  - rewrite !Z.min_l by lia. replace (a + n - a) with n by lia. reflexivity.
  - destruct (Z_le_gt_dec a (Z.of_nat (length l))) as [Hstart|Hstart].
    + rewrite (Z.min_l a), (Z.min_r (a + n)) by lia.
      rewrite !firstn_all2; [reflexivity | |]; rewrite length_skipn; lia.
    + rewrite !Z.min_r by lia. rewrite Z.sub_diag. cbn [Z.to_nat firstn].
      rewrite skipn_all2 by lia. now rewrite firstn_nil.
Qed.

(** A slice with both ends negative, not before the start of the
    sequence, counts from its end. *)
Lemma py_slice_negative {A} (a n : Z) (l : list A) :
  - Z.of_nat (length l) <= a -> 0 <= n -> a + n < 0 ->
  py_slice a (a + n) l =
  firstn (Z.to_nat n) (skipn (Z.to_nat (Z.of_nat (length l) + a)) l).
Proof.
  intros Ha Hn Hend. unfold py_slice, slice_index.
  destruct (Z.ltb_spec a 0); [|lia].
  destruct (Z.ltb_spec (a + n) 0); [|lia].
  rewrite !Z.max_r by lia.
  replace (a + n + Z.of_nat (length l) - (a + Z.of_nat (length l)))
    with n by lia.
  now rewrite (Z.add_comm a).
Qed.

(** A region of interest that reaches beyond the frame is cut down to the
    part inside the frame, silently.  For a rectangle with non-negative
    origin and extent the crop is the sub-rectangle as far as the frame
    goes: of a frame with [H] rows of [W] pixels it has
    [min h (max 0 (H - y))] rows of [min w (max 0 (W - x))] pixels. *)
Theorem crop_truncates_to_frame (r : QRect.t) (m : Mat Pixel) (W : Z) :
  0 <= QRect.x r -> 0 <= QRect.y r ->
  0 <= QRect.width r -> 0 <= QRect.height r ->
  Forall (fun row => Z.of_nat (length row) = W) (rows m) ->
  crop r m = sub_rectangle r m /\
  Z.of_nat (length (rows (crop r m))) =
    Z.min (QRect.height r)
      (Z.max 0 (Z.of_nat (length (rows m)) - QRect.y r)) /\
  Forall (fun row => Z.of_nat (length row) =
                     Z.min (QRect.width r) (Z.max 0 (W - QRect.x r)))
    (rows (crop r m)).
Proof.
  intros Hx Hy Hw Hh Hrect.
  assert (Hcrop : crop r m = sub_rectangle r m).
  { unfold crop, sub_rectangle. f_equal.
    rewrite py_slice_nonnegative by assumption.
    apply map_ext. intros row. now apply py_slice_nonnegative. }
  split; [exact Hcrop|]. rewrite Hcrop. unfold sub_rectangle. cbn [rows].
  split.
  - rewrite length_map, length_firstn, length_skipn. lia.
  - apply Forall_map. rewrite Forall_forall in *. intros row Hin.
    apply In_firstn, In_skipn, Hrect in Hin.
    rewrite length_firstn, length_skipn. lia.
Qed.

(** A negative [y] counts rows from the bottom edge: when the rectangle
    also ends above it, the rows taken are [h] rows starting [-y] rows
    above the bottom of the frame. *)
Theorem crop_negative_y_counts_from_bottom (r : QRect.t) (m : Mat Pixel) :
  - Z.of_nat (length (rows m)) <= QRect.y r ->
  0 <= QRect.height r ->
  QRect.y r + QRect.height r < 0 ->
  rows (crop r m) =
  map (py_slice (QRect.x r) (QRect.x r + QRect.width r))
    (firstn (Z.to_nat (QRect.height r))
       (skipn (Z.to_nat (Z.of_nat (length (rows m)) + QRect.y r)) (rows m))).
Proof.
  intros Hy Hh Hend. unfold crop. cbn [rows].
  now rewrite py_slice_negative.
Qed.

Lemma py_slice_empty {A} (a : Z) (l : list A) : py_slice a a l = [].
Proof. unfold py_slice. now rewrite Z.sub_diag. Qed.

(** A region of interest without height or without width selects no pixel
    at all, wherever it lies; the rectangle the constructor leaves in
    [currentROI] is one. *)
Theorem crop_of_empty_roi (r : QRect.t) (m : Mat Pixel) :
  QRect.height r = 0 \/ QRect.width r = 0 ->
  concat (rows (crop r m)) = [].
Proof.
  intros [Hh|Hw]; unfold crop; cbn [rows].
  - rewrite Hh, Z.add_0_r, py_slice_empty. reflexivity.
  - rewrite Hw, Z.add_0_r.
    induction (py_slice _ _ (rows m)) as [|row l IH]; [reflexivity|].
    cbn. now rewrite py_slice_empty.
Qed.

(** ** More on the pipeline *)

Lemma set_currentFrame_same (m : Mat Pixel) (s : ProcessingThreadModel) :
  currentFrame s = Some m -> set_currentFrame (Some m) s = s.
Proof. destruct s; cbn; intros ->; reflexivity. Qed.

Lemma transform_run (f : Mat Pixel -> exn + Mat Pixel) (m : Mat Pixel)
    (s : ProcessingThreadModel) :
  currentFrame s = Some m ->
  transform f s =
  match f m with
  | inr m' => Done tt (set_currentFrame (Some m') s)
  | inl e => Raised e s
  end.
Proof.
  intros Hm. unfold transform, bind, get_currentFrame, lift, modify.
  rewrite Hm. destruct (f m); reflexivity.
Qed.

Lemma optional_run (on : bool) (f : Mat Pixel -> exn + Mat Pixel)
    (m : Mat Pixel) (s : ProcessingThreadModel) :
  currentFrame s = Some m ->
  when on (transform f) s =
  match optional on f m with
  | inr m' => Done tt (set_currentFrame (Some m') s)
  | inl e => Raised e s
  end.
Proof.
  intros Hm. unfold optional, when. destruct on.
  - now apply transform_run.
  - now rewrite (set_currentFrame_same m s Hm).
Qed.

Lemma grayscale_step_run (m : Mat Pixel) (s : ProcessingThreadModel) :
  currentFrame s = Some m ->
  grayscale_step s =
  match to_gray (imgProcFlags s) m with
  | inr m' => Done tt (set_currentFrame (Some m') s)
  | inl e => Raised e s
  end.
Proof.
  intros Hm. unfold to_gray.
  destruct (grayscaleOn (imgProcFlags s)) eqn:Hon.
  - destruct (channels m) as [c|] eqn:Hc.
    + rewrite (grayscale_step_channels m c s Hon Hm Hc).
      destruct ((c =? 3) || (c =? 4)).
      * now apply transform_run.
      * now rewrite (set_currentFrame_same m s Hm).
    + now apply grayscale_step_2d with (m := m).
  - unfold grayscale_step, bind, gets, ret. rewrite Hon.
    now rewrite (set_currentFrame_same m s Hm).
Qed.

Lemma smooth_step_run (m : Mat Pixel) (s : ProcessingThreadModel) :
  currentFrame s = Some m ->
  smooth_step s =
  match to_smooth (imgProcFlags s) (imgProcSettings s) m with
  | inr m' => Done tt (set_currentFrame (Some m') s)
  | inl e => Raised e s
  end.
Proof.
  intros Hm. unfold smooth_step, to_smooth, bind, gets, when, ret.
  destruct (smoothOn (imgProcFlags s));
    [|now rewrite (set_currentFrame_same m s Hm)].
  repeat match goal with
         | |- context [if ?b then _ else _] => destruct b
         end;
    try match goal with
        | |- transform ?f s = _ => exact (transform_run f m s Hm)
        end.
  now rewrite (set_currentFrame_same m s Hm).
Qed.

(** The pipeline in one equation. *)
Lemma pipeline_run
    (m : Mat Pixel) (s : ProcessingThreadModel) :
  currentFrame s = Some m ->
  pipeline s =
  match apply_all (transforms (imgProcFlags s) (imgProcSettings s)) m with
  | inr m' => Done tt (set_currentFrame (Some m') s)
  | inl (e, m') => Raised e (set_currentFrame (Some m') s)
  end.
Proof.
  intros Hm. unfold pipeline, transforms, bind. cbn [apply_all].
  rewrite (grayscale_step_run m s Hm).
  destruct (to_gray _ m) as [e|m1];
    [now rewrite (set_currentFrame_same m s Hm)|].
  rewrite (smooth_step_run m1) by reflexivity. cbn [imgProcFlags imgProcSettings set_currentFrame].
  destruct (to_smooth _ _ m1) as [e|m2]; [reflexivity|].
  unfold dilate_step, bind, gets.
  rewrite (optional_run _ _ m2) by reflexivity. cbn [imgProcFlags imgProcSettings set_currentFrame].
  destruct (optional _ _ m2) as [e|m3]; [reflexivity|].
  unfold erode_step, bind, gets.
  rewrite (optional_run _ _ m3) by reflexivity. cbn [imgProcFlags imgProcSettings set_currentFrame].
  destruct (optional _ _ m3) as [e|m4]; [reflexivity|].
  unfold flip_step, bind, gets.
  rewrite (optional_run _ _ m4) by reflexivity. cbn [imgProcFlags imgProcSettings set_currentFrame].
  destruct (optional _ _ m4) as [e|m5]; [reflexivity|].
  unfold canny_step, bind, gets.
  rewrite (optional_run _ _ m5) by reflexivity. cbn [imgProcFlags imgProcSettings set_currentFrame].
  destruct (optional _ _ m5) as [e|m6]; [reflexivity|].
  unfold speed_step, bind, gets.
  rewrite (optional_run _ _ m6) by reflexivity. cbn [imgProcFlags imgProcSettings set_currentFrame].
  destruct (optional _ _ m6) as [e|m7]; reflexivity.
Qed.

(** The pipeline is the seven steps applied in the order grayscale,
    smoothing, dilation, erosion, flip, edge detection, overlay, each to the
    result of the one before: it is determined by the flags, the settings
    and the frame in [currentFrame], writes [currentFrame] only, and at the
    first step that raises it ends with that exception and the frame the
    step was given. *)
Theorem pipeline_applies_transforms_in_order
    (m : Mat Pixel) (s : ProcessingThreadModel) :
  currentFrame s = Some m ->
  pipeline s =
  match apply_all (transforms (imgProcFlags s) (imgProcSettings s)) m with
  | inr m' => Done tt (set_currentFrame (Some m') s)
  | inl (e, m') => Raised e (set_currentFrame (Some m') s)
  end.
Proof. exact (pipeline_run m s). Qed.

(** A smoothing kind other than 0, 1 or 2 is ignored: the smoothing step
    leaves the frame as it is and raises nothing, whether smoothing is
    switched on or not. *)
Theorem smooth_step_unknown_kind (s : ProcessingThreadModel) :
  smoothType (imgProcSettings s) <> 0 ->
  smoothType (imgProcSettings s) <> 1 ->
  smoothType (imgProcSettings s) <> 2 ->
  smooth_step s = Done tt s.
Proof.
  intros H0 H1 H2. unfold smooth_step, bind, gets, when, ret.
  destruct (Z.eqb_spec (smoothType (imgProcSettings s)) 0); [contradiction|].
  destruct (Z.eqb_spec (smoothType (imgProcSettings s)) 1); [contradiction|].
  destruct (Z.eqb_spec (smoothType (imgProcSettings s)) 2); [contradiction|].
  destruct (smoothOn (imgProcFlags s)); reflexivity.
Qed.

(** What an iteration has done when it ends. *)
Lemma iteration_effect (elapsed : Z) (raw : Mat Pixel)
    (s : ProcessingThreadModel) :
  match iteration elapsed raw s with
  | Done _ s' =>
      kept s s' /\ processingTime s' = elapsed /\
      exists q, frame s' = Some q /\ emitted s' = emitted s ++ [newFrame q]
  | Raised _ s' => kept s s' /\ emitted s' = emitted s /\
                   processingTime s' = elapsed /\ frame s' = frame s
  | Blocked _ => False
  end.
Proof.
  rewrite iteration_unfold.
  rewrite (pipeline_run (crop (currentROI s) raw))
    by reflexivity.
  destruct (apply_all _ _) as [[e mk]|m']; cbn.
  - unfold kept; cbn. repeat split; reflexivity.
  - destruct (matToQImage m') as [e|q]; unfold kept; cbn.
    + repeat split; reflexivity.
    + repeat split; try reflexivity. exists q. split; reflexivity.
Qed.

(** One loop iteration always ends, by returning or by raising.  It never
    writes the stop flag, the region of interest, the flags, the settings
    or the estimator; when it returns it has emitted exactly one frame, and
    when it raises it has emitted nothing. *)
Theorem iteration_writes_frames_only (elapsed : Z) (raw : Mat Pixel)
    (s : ProcessingThreadModel) :
  match iteration elapsed raw s with
  | Done _ s' =>
      kept s s' /\ processingTime s' = elapsed /\
      exists q, frame s' = Some q /\ emitted s' = emitted s ++ [newFrame q]
  | Raised _ s' => kept s s' /\ emitted s' = emitted s /\
                   processingTime s' = elapsed /\ frame s' = frame s
  | Blocked _ => False
  end.
Proof. exact (iteration_effect elapsed raw s). Qed.

(** ** More on the configuration *)

(** The calls of the controller write different attributes, so the order
    in which two different ones are made does not matter. *)
Theorem configuration_calls_commute
    (roi : QRect.t) (f : ImageProcessingFlags) (p : ImageProcessingSettings)
    (s : ProcessingThreadModel) :
  bind (setROI roi) (fun _ => updateImageProcessingFlags f) s =
    bind (updateImageProcessingFlags f) (fun _ => setROI roi) s /\
  bind (setROI roi) (fun _ => updateImageProcessingSettings p) s =
    bind (updateImageProcessingSettings p) (fun _ => setROI roi) s /\
  bind (updateImageProcessingFlags f)
    (fun _ => updateImageProcessingSettings p) s =
    bind (updateImageProcessingSettings p)
      (fun _ => updateImageProcessingFlags f) s /\
  bind stop (fun _ => setROI roi) s = bind (setROI roi) (fun _ => stop) s /\
  bind stop (fun _ => updateImageProcessingFlags f) s =
    bind (updateImageProcessingFlags f) (fun _ => stop) s /\
  bind stop (fun _ => updateImageProcessingSettings p) s =
    bind (updateImageProcessingSettings p) (fun _ => stop) s.
Proof.
  unfold bind, updateImageProcessingSettings, stop, modify.
  repeat (rewrite ?setROI_run, ?updateImageProcessingFlags_run;
          cbv beta iota).
  repeat split; reflexivity.
Qed.

(** Of two calls of the same setter the later one decides: nothing of the
    earlier rectangle, flags or settings is left. *)
Theorem configuration_last_call_wins
    (r1 r2 : QRect.t) (f1 f2 : ImageProcessingFlags)
    (p1 p2 : ImageProcessingSettings) (s : ProcessingThreadModel) :
  bind (setROI r1) (fun _ => setROI r2) s = setROI r2 s /\
  bind (updateImageProcessingFlags f1)
    (fun _ => updateImageProcessingFlags f2) s =
    updateImageProcessingFlags f2 s /\
  bind (updateImageProcessingSettings p1)
    (fun _ => updateImageProcessingSettings p2) s =
    updateImageProcessingSettings p2 s.
Proof.
  unfold bind, updateImageProcessingSettings, modify.
  repeat (rewrite ?setROI_run, ?updateImageProcessingFlags_run;
          cbv beta iota).
  repeat split; reflexivity.
Qed.

(** ** More on the run loop *)

Lemma in_run_act (w0 w : Worker) (a : action) :
  0 < N -> in_run w0 w -> in_run w0 (act a w).
Proof.
  intros HN (frames & Hfr & Hw).
  destruct w as [p s]; cbn [pc self] in Hw.
  destruct a as [elapsed raw| |roi|f|g]; cbn [act].
  - unfold worker_step; cbn [pc self].
    destruct p as [| | | |e|].
    + exists frames. split; [assumption|].
      destruct (doStop s); cbn; exact Hw.
    + destruct Hw as (Hem & Hest).
      pose proof (iteration_outcome elapsed raw s) as Hit.
      destruct (iteration elapsed raw s) as [[] s'|e s'|s']; cbn.
      * destruct Hit as (Hkept & q & Hq).
        exists (frames ++ [newFrame q]). split.
        -- rewrite forallb_app, Hfr. reflexivity.
        -- cbn. rewrite Hq, Hem, app_assoc, (kept_estimator _ _ Hkept).
           split; [reflexivity | assumption].
      * destruct Hit as (Hkept & Hq).
        exists frames. split; [assumption|]. cbn.
        rewrite Hq, (kept_estimator _ _ Hkept). split; assumption.
      * contradiction.
    + destruct Hw as (Hem & Hest).
      destruct (after_loop_returns s HN) as (s1 & Hupd & Hrest & Hafter).
      cbn zeta in Hafter. rewrite Hafter. cbn.
      destruct (updateFPS_local (processingTime s) s (self w0) HN Hest)
        as (a' & b' & Ha & Hb & Hab).
      rewrite Hupd in Ha. injection Ha as <-.
      unfold estimator in Hab, Hest. injection Hab as _ _ _ Hd.
      injection Hest as _ _ _ Hd0.
      exists frames. split; [assumption|].
      exists (processingTime s), b'. cbn.
      rewrite Hd, Hd0, Hem, <- app_assoc. repeat split; auto.
    + exists frames. split; [assumption | exact Hw].
    + exists frames. split; [assumption | exact Hw].
    + contradiction.
  - exists frames. split; [assumption|].
    unfold call, stop, modify; cbn. destruct p; exact Hw.
  - exists frames. split; [assumption|].
    unfold call. rewrite setROI_run. cbn. destruct p; exact Hw.
  - exists frames. split; [assumption|].
    unfold call. rewrite updateImageProcessingFlags_run. cbn.
    destruct p; exact Hw.
  - exists frames. split; [assumption|].
    unfold call, updateImageProcessingSettings, modify. cbn.
    destruct p; exact Hw.
Qed.

Lemma in_run_exec (w0 : Worker) (sched : list action) :
  0 < N -> forall w : Worker, in_run w0 w -> in_run w0 (exec sched w).
Proof.
  intros HN. induction sched as [|a sched IH]; intros w Hw; [exact Hw|].
  cbn [exec]. apply IH, in_run_act; assumption.
Qed.

Lemma in_run_start (w : Worker) : running w -> in_run w w.
Proof.
  intros Hrun. exists []. split; [reflexivity|].
  destruct Hrun as [-> | ->]; rewrite app_nil_r; split; reflexivity.
Qed.

(** The signals of a run come in one order: frames as long as the worker
    is in the loop, then, when [run] returns, one statistics signal, which
    is the last.  A worker that left [run] by an exception has emitted
    frames only, and the worker never blocks. *)
Theorem run_emits_frames_then_statistics (w : Worker) (sched : list action) :
  0 < N -> running w ->
  let w' := exec sched w in
  exists frames,
    forallb is_newFrame frames = true /\
    pc w' <> Hung /\
    emitted (self w') =
      emitted (self w) ++ frames ++
      match pc w' with
      | Returned => [updateStatisticsInGUI (statsData (self w'))]
      | _ => []
      end.
Proof.
  intros HN Hrun w'.
  destruct (in_run_exec w sched HN w (in_run_start w Hrun))
    as (frames & Hfr & Hw').
  fold w' in Hw'. exists frames. split; [assumption|].
  destruct (pc w') as [| | | |e|]; try contradiction;
    try (destruct Hw' as [Hem _]; rewrite app_nil_r;
         split; [discriminate | assumption]).
  destruct Hw' as (t & s1 & _ & _ & Hem). split; [discriminate | assumption].
Qed.

(** What the placement of the [updateFPS] call after the loop means for a
    whole run.  However many iterations a run makes, the estimator receives
    one sample at most: unless the window is one sample short of full when
    the run starts, the published average is never changed, and the frame
    counter is incremented once, when [run] returns. *)
Theorem run_never_publishes_average (w : Worker) (sched : list action) :
  0 < N -> running w ->
  estimator_inv (self w) ->
  Z.of_nat (length (fps (self w))) + 1 < N ->
  let w' := exec sched w in
  averageFPS (statsData (self w')) = averageFPS (statsData (self w)) /\
  nFramesProcessed (statsData (self w')) =
    nFramesProcessed (statsData (self w)) +
    match pc w' with Returned => 1 | _ => 0 end.
Proof.
  intros HN Hrun Hinv Hroom w'.
  destruct (in_run_exec w sched HN w (in_run_start w Hrun))
    as (frames & Hfr & Hw').
  fold w' in Hw'.
  destruct (pc w') as [| | | |e|]; try contradiction;
    try (destruct Hw' as [_ Hest]; unfold estimator in Hest;
         injection Hest as _ _ _ ->; split; [reflexivity | lia]).
  destruct Hw' as (t & s1 & Hupd & Hd & _). rewrite Hd. cbn.
  split; [|reflexivity].
  destruct (Z_lt_le_dec 0 t) as [Ht|Ht].
  - rewrite (updateFPS_below t (self w) Ht Hinv Hroom) in Hupd.
    injection Hupd as <-. reflexivity.
  - rewrite (updateFPS_nonpositive t (self w) Ht Hinv) in Hupd.
    injection Hupd as <-. reflexivity.
Qed.

Lemma dead_keeps_flag (e : exn) (sched : list action) :
  existsb is_stop sched = false ->
  forall w : Worker,
    pc w = Died e -> doStop (self (exec sched w)) = doStop (self w).
Proof.
  induction sched as [|a sched IH]; intros Hno w Hpc; [reflexivity|].
  cbn [existsb] in Hno. apply orb_false_iff in Hno as [Ha Hno].
  cbn [exec].
  assert (Hact : pc (act a w) = Died e /\
                 doStop (self (act a w)) = doStop (self w)).
  { destruct w as [p s]; cbn in Hpc; subst p.
    destruct a; try discriminate; cbn; unfold call;
      rewrite ?setROI_run, ?updateImageProcessingFlags_run; cbn; auto. }
  destruct Hact as [Hpc' Hflag]. rewrite (IH Hno _ Hpc'). exact Hflag.
Qed.

(** The loop without a stop request. *)
Lemma loop_not_left (sched : list action) :
  existsb is_stop sched = false ->
  forall w : Worker,
    running w -> doStop (self w) = false ->
    let w' := exec sched w in
    doStop (self w') = false /\
    (running w' \/ exists e, pc w' = Died e).
Proof.
  induction sched as [|a sched IH]; intros Hno w Hrun Hflag.
  - cbn. auto.
  - cbn [existsb] in Hno. apply orb_false_iff in Hno as [Ha Hno].
    cbn [exec].
    assert (Hstep : doStop (self (act a w)) = false /\
                    (running (act a w) \/ exists e, pc (act a w) = Died e)).
    { destruct w as [p s]; cbn [self] in Hflag.
      destruct a as [elapsed raw| |roi|f|g]; cbn [act]; [|discriminate| | |].
      - unfold worker_step; cbn [pc self].
        destruct Hrun as [Hp|Hp]; cbn in Hp; subst p.
        + rewrite Hflag. cbn. split; [assumption | left; right; reflexivity].
        + pose proof (iteration_outcome elapsed raw s) as Hit.
          destruct (iteration elapsed raw s) as [[] s'|e s'|s']; cbn.
          * destruct Hit as ((Hd & _) & _).
            split; [congruence | left; left; reflexivity].
          * destruct Hit as ((Hd & _) & _).
            split; [congruence | right; exists e; reflexivity].
          * contradiction.
      - unfold call. rewrite setROI_run. cbn. split; [assumption | left; exact Hrun].
      - unfold call. rewrite updateImageProcessingFlags_run. cbn.
        split; [assumption | left; exact Hrun].
      - unfold call, updateImageProcessingSettings, modify. cbn.
        split; [assumption | left; exact Hrun]. }
    destruct Hstep as [Hflag' [Hrun'|[e He]]].
    + apply IH; assumption.
    + destruct (dead_exec e sched (act a w) He) as [Hpc _].
      cbn zeta. split; [|right; exists e; exact Hpc].
      rewrite (dead_keeps_flag e sched Hno (act a w) He). exact Hflag'.
Qed.

(** Without a stop request the loop is not left: as long as [stop] is not
    called, a worker that is in the loop with the flag clear stays in the
    loop, unless an iteration raises. *)
Theorem loop_runs_until_stop (sched : list action) :
  existsb is_stop sched = false ->
  forall w : Worker,
    running w -> doStop (self w) = false ->
    let w' := exec sched w in
    doStop (self w') = false /\
    (running w' \/ exists e, pc w' = Died e).
Proof. exact (loop_not_left sched). Qed.

(** With every flag off and a conversion that does not fail, the worker
    left alone turns the stream of frames into the stream of their crops:
    one frame emitted per iteration, in order, each the conversion of the
    crop by the region of interest, and the loop goes on. *)
Theorem passthrough_stream
    (conv : Mat Pixel -> QImage) (inputs : list (Z * Mat Pixel)) :
  (forall m, matToQImage m = inr (conv m)) ->
  forall w : Worker,
    pc w = LoopHead -> doStop (self w) = false ->
    imgProcFlags (self w) = all_off ->
    let w' := exec (alone inputs) w in
    pc w' = LoopHead /\
    emitted (self w') =
      emitted (self w) ++
      map (fun i => newFrame (conv (crop (currentROI (self w)) (snd i))))
        inputs /\
    kept (self w) (self w').
Proof.
  intros Hconv. induction inputs as [|[elapsed raw] inputs IH];
    intros w Hpc Hflag Hoff.
  - cbn. rewrite app_nil_r. unfold kept. repeat split; auto.
  - destruct w as [p s]; cbn [pc self] in *; subst p.
    cbn [alone flat_map fst snd app exec act]. fold (alone inputs).
    set (cropped := crop (currentROI s) raw).
    set (s1 := set_emitted (emitted s ++ [newFrame (conv cropped)])
                 (set_frame (Some (conv cropped))
                    (set_currentFrame (Some cropped)
                       (set_processingTime elapsed s)))).
    assert (Hstep : worker_step elapsed raw
                      (worker_step elapsed raw (mkWorker LoopHead s)) =
                    mkWorker LoopHead s1).
    { unfold worker_step at 2; cbn [pc self]. rewrite Hflag.
      unfold worker_step; cbn [pc self].
      rewrite iteration_unfold, pipeline_all_off by exact Hoff.
      cbn [currentFrame set_currentFrame]. rewrite Hconv. reflexivity. }
    cbn zeta. rewrite Hstep.
    destruct (IH (mkWorker LoopHead s1)) as (Hpc' & Hem & Hkept);
      [reflexivity | exact Hflag | exact Hoff |].
    cbn zeta in Hpc', Hem, Hkept. cbn [self] in Hem, Hkept.
    split; [exact Hpc'|]. split.
    + rewrite Hem. subst s1. cbn. rewrite <- app_assoc. reflexivity.
    + unfold kept in *. subst s1. cbn in Hkept. exact Hkept.
Qed.

Lemma stopped_at_check_act (w0 w : Worker) (a : action) :
  0 < N -> stopped_at_check w0 w -> stopped_at_check w0 (act a w).
Proof.
  intros HN Hw. unfold stopped_at_check in *.
  destruct w as [p s]; cbn [pc self] in Hw.
  destruct a as [elapsed raw| |roi|f|g]; cbn [act].
  - unfold worker_step; cbn [pc self].
    destruct p as [| | | |e|]; try contradiction.
    + destruct Hw as [Hflag Hem]. rewrite Hflag. cbn. exact Hem.
    + destruct (after_loop_returns s HN) as (s1 & Hupd & Hrest & Hafter).
      cbn zeta in Hafter. rewrite Hafter. cbn. now rewrite Hw.
    + exact Hw.
  - unfold call, stop, modify; cbn.
    destruct p; try exact Hw. destruct Hw as [_ Hem]. split; auto.
  - unfold call. rewrite setROI_run. cbn. destruct p; exact Hw.
  - unfold call. rewrite updateImageProcessingFlags_run. cbn.
    destruct p; exact Hw.
  - unfold call, updateImageProcessingSettings, modify. cbn.
    destruct p; exact Hw.
Qed.

(** A stop request that arrives while the worker is at the stop check is
    served before any further frame: from then on the worker emits no
    frame at all, and nothing but the final statistics. *)
Theorem stop_at_check_emits_no_frame (w : Worker) (sched : list action) :
  0 < N -> pc w = LoopHead ->
  let w' := exec sched (act CallStop w) in
  match pc w' with
  | LoopHead | AfterLoop => emitted (self w') = emitted (self w)
  | Returned =>
      emitted (self w') =
      emitted (self w) ++ [updateStatisticsInGUI (statsData (self w'))]
  | LoopBody | Died _ | Hung => False
  end.
Proof.
  intros HN Hpc w'.
  assert (Hstart : stopped_at_check w (act CallStop w)).
  { unfold stopped_at_check, act, call, stop, modify; cbn.
    rewrite Hpc. split; reflexivity. }
  assert (Hexec : forall sched v,
            stopped_at_check w v -> stopped_at_check w (exec sched v)).
  { clear sched w' Hstart. induction sched as [|a sched IH]; intros v Hv;
      [exact Hv|].
    cbn [exec]. apply IH, stopped_at_check_act; assumption. }
  apply (Hexec sched) in Hstart. fold w' in Hstart.
  unfold stopped_at_check in Hstart.
  destruct (pc w'); try exact Hstart. destruct Hstart as [_ Hem]. exact Hem.
Qed.

(** [updateImageProcessingSettings] replaces the settings as a whole: all
    twelve are those of the argument afterwards, and the flags, the region
    of interest, the stop flag and the estimator are as before. *)
Theorem updateImageProcessingSettings_overwrites
    (p : ImageProcessingSettings) (s : ProcessingThreadModel) :
  exists s',
    updateImageProcessingSettings p s = Done tt s' /\
    imgProcSettings s' = p /\
    imgProcFlags s' = imgProcFlags s /\
    currentROI s' = currentROI s /\
    doStop s' = doStop s /\
    estimator s' = estimator s.
Proof.
  eexists. split; [reflexivity|]. cbn.
  destruct p; repeat split; reflexivity.
Qed.

(** ** Stopping the worker *)








(** C9, as the code has it.  [run] has no exception handler: when an
    iteration raises, the worker leaves [run] with that exception, the
    iteration has emitted nothing, and whatever the two threads do
    afterwards no further signal is emitted (no frame, no statistics).
    Apart from such an exception only a stop request ends the loop: as long
    as [stop] is not called, a worker in the loop with the flag clear stays
    in the loop. *)
Theorem exception_ends_run (w : Worker) (sched : list action) :
  running w ->
  (forall (elapsed : Z) (raw : Mat Pixel) (e : exn)
          (s' : ProcessingThreadModel),
     pc w = LoopBody ->
     iteration elapsed raw (self w) = Raised e s' ->
     let w' := exec sched (worker_step elapsed raw w) in
     pc w' = Died e /\ emitted (self w') = emitted (self w)) /\
  (doStop (self w) = false -> existsb is_stop sched = false ->
   let w' := exec sched w in
   doStop (self w') = false /\
   (running w' \/ exists e, pc w' = Died e)).
Proof.
  intros Hrun. split.
  - intros elapsed raw e s' Hpc Hit w'.
    pose proof (iteration_outcome elapsed raw (self w)) as Hout.
    rewrite Hit in Hout. destruct Hout as [_ Hem].
    assert (Hstep : worker_step elapsed raw w = mkWorker (Died e) s').
    { unfold worker_step. rewrite Hpc, Hit. reflexivity. }
    destruct (dead_exec e sched (worker_step elapsed raw w)) as [Hpc' Hem'].
    { rewrite Hstep. reflexivity. }
    subst w'. rewrite Hstep in Hem'. cbn in Hem'.
    split; [assumption | congruence].
  - intros Hflag Hno. exact (loop_not_left sched Hno w Hrun Hflag).
Qed.

End Properties.

(** * The model on the test objects *)

Section Runs.

#[local] Existing Instances window32 binary64 no_opencv.
Import Sample.

(** The specification's scenario: 64 iterations of 20 ms with a window of
    32 publish 50.0 after the 32nd and again after the 64th sample. *)
Example average_of_32_samples :
  exists s, feed (repeat 20 32) fresh = Done tt s /\
            averageFPS (statsData s) = 50%float /\ sampleNumber s = 0.
Proof. eexists. split; [vm_compute; reflexivity|]. split; reflexivity. Qed.

Example average_of_64_samples :
  exists s, feed (repeat 20 64) fresh = Done tt s /\
            averageFPS (statsData s) = 50%float /\ sampleNumber s = 0 /\
            publications (repeat 20 64) fresh = 2%nat.
Proof.
  eexists. split; [vm_compute; reflexivity|].
  repeat split; vm_compute; reflexivity.
Qed.

Lemma updateFPS_batch_average_witness :
  0 < N /\ fps fresh = [] /\ sampleNumber fresh = 0 /\
  fpsSum fresh = float_zero /\
  exists s', feed (repeat 20 32) fresh = Done tt s' /\
             averageFPS (statsData s') =
               float_truediv
                 (fold_left float_add (map (int_truediv 1000) (repeat 20 32))
                    float_zero) N /\
             sampleNumber s' = 0 /\
             fps s' = [] /\
             publications (repeat 20 32) fresh = 1%nat.
Proof.
  repeat (split; [reflexivity|]).
  refine (proj2 (updateFPS_batch_average fresh _ _ _ _) (repeat 20 32) _ _);
    try reflexivity.
  apply Forall_forall. intros t Ht. apply repeat_spec in Ht. subst t.
  reflexivity.
Defined.

Lemma updateFPS_nonpositive_not_recorded_witness :
  0 <= 0 /\ 0 < N /\
  exists s',
    updateFPS 0 fresh = Done tt s' /\
    (exists gone, fps fresh = gone ++ fps s') /\
    sampleNumber s' <= sampleNumber fresh /\
    (estimator_inv fresh -> s' = fresh).
Proof.
  split; [discriminate|]. split; [reflexivity|].
  apply updateFPS_nonpositive_not_recorded; [discriminate | reflexivity].
Defined.

Lemma updateFPS_counter_matches_queue_witness :
  0 < N /\
  exists s,
    feed (repeat 20 40) (init all_off settings0 (mkStats PrimFloat.zero 0))
      = Done tt s /\
    sampleNumber s = Z.of_nat (length (fps s)) /\
    Z.of_nat (length (fps s)) <= N /\
    sampleNumber s <= N /\
    forall t, evicts t s = false.
Proof.
  split; [reflexivity|].
  apply updateFPS_counter_matches_queue. reflexivity.
Defined.

Lemma identity_pipeline_witness :
  imgProcFlags with_roi = all_off /\
  roi_fits (currentROI with_roi) bgr_100x100 = true /\
  let cropped := sub_rectangle (currentROI with_roi) bgr_100x100 in
  let s1 := set_currentFrame (Some cropped) (set_processingTime 20 with_roi) in
  crop (currentROI with_roi) bgr_100x100 = cropped /\
  pipeline s1 = Done tt s1 /\
  iteration 20 bgr_100x100 with_roi =
  match matToQImage cropped with
  | inr q => Done tt (set_emitted (emitted with_roi ++ [newFrame q])
                        (set_frame (Some q) s1))
  | inl e => Raised e s1
  end.
Proof.
  split; [reflexivity|]. split; [vm_compute; reflexivity|].
  apply identity_pipeline; [reflexivity | vm_compute; reflexivity].
Defined.

(** The cropped frame of the scenario is 50 rows of 50 pixels. *)
Example crop_50x50 :
  map (@length _) (rows (crop (currentROI with_roi) bgr_100x100)) =
  repeat 50%nat 50.
Proof. vm_compute. reflexivity. Qed.

(** C3, as the specification has it, fails: a rectangle wider than the
    frame is stored, the previous region of interest is gone, and no
    signal reports the condition. *)
Lemma setROI_stores_out_of_bounds :
  roi_fits (getCurrentROI with_roi) bgr_100x100 = true /\
  roi_fits too_wide bgr_100x100 = false /\
  exists s',
    setROI too_wide with_roi = Done tt s' /\
    getCurrentROI s' = too_wide /\
    getCurrentROI s' <> getCurrentROI with_roi /\
    emitted s' = emitted with_roi.
Proof.
  split; [vm_compute; reflexivity|]. split; [vm_compute; reflexivity|].
  eexists. split; [vm_compute; reflexivity|].
  split; [reflexivity|]. split; [discriminate | reflexivity].
Qed.

(** C5 on a 2-D array.  With the grayscale flag on, a single-channel frame
    held as a 2-D array does not pass through: evaluating [shape[2]]
    raises [IndexError], and the iteration ends with it before anything is
    emitted. *)
Theorem grayscale_guard_raises_on_2d_frame :
  channels gray_2x2 = None /\
  grayscale_step (set_currentFrame (Some gray_2x2) grayscale_only) =
    Raised IndexError (set_currentFrame (Some gray_2x2) grayscale_only) /\
  iteration 20 gray_2x2 grayscale_only =
    Raised IndexError
      (set_currentFrame (Some gray_2x2) (set_processingTime 20 grayscale_only)).
Proof.
  split; [reflexivity|]. split; vm_compute; reflexivity.
Qed.

(** C8 on three iterations.  The loop emits three frames, two of them
    after a positive elapsed time, and the estimator has recorded no
    sample: [updateFPS] is not called inside the loop. *)
Theorem loop_iterations_feed_no_sample :
  let w := exec three_iterations (mkWorker LoopHead with_roi) in
  pc w = LoopHead /\
  map is_newFrame (emitted (self w)) = [true; true; true] /\
  processingTime (self w) = 20 /\
  sampleNumber (self w) = 0 /\
  fps (self w) = [] /\
  statsData (self w) = statsData with_roi.
Proof. vm_compute. repeat split; reflexivity. Qed.

(** C9, as the specification has it, fails: no stop was requested, the
    iteration raises ([IndexError] from the channel guard on a 2-D frame,
    [cv2.error] from a median blur with an even kernel), and the worker
    has left [run] for good without any signal, error-tagged or other. *)
Lemma exception_is_not_caught :
  doStop grayscale_only = false /\
  (let w := exec ([Step 20 gray_2x2] ++ three_iterations)
              (mkWorker LoopBody grayscale_only) in
   pc w = Died IndexError /\ emitted (self w) = []) /\
  doStop median_even = false /\
  (let w := exec ([Step 20 bgr_100x100] ++ three_iterations)
              (mkWorker LoopBody median_even) in
   pc w = Died cv2_error /\ emitted (self w) = []).
Proof. vm_compute. repeat split; reflexivity. Qed.


(** ** The further properties on the test objects *)

Lemma feed_windows_witness :
  0 < N /\ Z.of_nat (length [10; 10]) < N /\
  exists s',
    feed (concat two_windows ++ [10; 10]) fresh = Done tt s' /\
    fps s' = map (int_truediv 1000) [10; 10] /\
    sampleNumber s' = Z.of_nat (length [10; 10]) /\
    publications (concat two_windows ++ [10; 10]) fresh =
      length two_windows /\
    averageFPS (statsData s') =
      match rev two_windows with
      | [] => averageFPS (statsData fresh)
      | w :: _ => window_average w
      end /\
    nFramesProcessed (statsData s') = nFramesProcessed (statsData fresh).
Proof.
  split; [reflexivity|]. split; [reflexivity|].
  apply (feed_windows two_windows [10; 10]); try reflexivity.
  - repeat constructor; apply Forall_forall; intros t Ht;
      apply repeat_spec in Ht; subst t; reflexivity.
  - repeat constructor.
Defined.

(** The second window of the run above publishes 40.0 (1000 / 25). *)
Example second_window_average :
  exists s', feed (concat two_windows ++ [10; 10]) fresh = Done tt s' /\
             averageFPS (statsData s') = 40%float /\ sampleNumber s' = 2.
Proof. eexists. split; [vm_compute; reflexivity|]. split; reflexivity. Qed.

Lemma feed_ignores_nonpositive_witness :
  0 < N /\ estimator_inv fresh /\
  feed [20; 0; -5; 20] fresh =
    feed (filter (fun t => 0 <? t) [20; 0; -5; 20]) fresh /\
  publications [20; 0; -5; 20] fresh =
    publications (filter (fun t => 0 <? t) [20; 0; -5; 20]) fresh.
Proof.
  split; [reflexivity|].
  assert (Hinv : estimator_inv fresh) by (repeat split; reflexivity).
  split; [exact Hinv|].
  apply (feed_ignores_nonpositive [20; 0; -5; 20]);
    [reflexivity | exact Hinv].
Defined.

Lemma updateFPS_window_not_positive_witness :
  updateFPS (cfg := window0) 0 fresh = Raised ZeroDivisionError fresh /\
  updateFPS (cfg := window_negative) (-3) fresh = Blocked fresh.
Proof.
  split.
  - apply (updateFPS_window_not_positive (cfg := window0) 0 fresh);
      [discriminate | discriminate | reflexivity | reflexivity].
  - apply (updateFPS_window_not_positive (cfg := window_negative) (-3) fresh);
      [discriminate | discriminate | reflexivity | reflexivity].
Defined.

Lemma updateFPS_writes_estimator_only_witness :
  0 < N /\
  exists s',
    updateFPS 20 median_even = Done tt s' /\
    doStop s' = doStop median_even /\
    processingTime s' = processingTime median_even /\
    currentROI s' = currentROI median_even /\
    imgProcFlags s' = imgProcFlags median_even /\
    imgProcSettings s' = imgProcSettings median_even /\
    frame s' = frame median_even /\
    currentFrame s' = currentFrame median_even /\
    emitted s' = emitted median_even /\
    nFramesProcessed (statsData s') =
      nFramesProcessed (statsData median_even).
Proof.
  split; [reflexivity|].
  apply updateFPS_writes_estimator_only. reflexivity.
Defined.

Lemma crop_truncates_to_frame_witness :
  crop too_wide bgr_100x100 = sub_rectangle too_wide bgr_100x100 /\
  Z.of_nat (length (rows (crop too_wide bgr_100x100))) =
    Z.min (QRect.height too_wide)
      (Z.max 0 (Z.of_nat (length (rows bgr_100x100)) - QRect.y too_wide)) /\
  Forall (fun row => Z.of_nat (length row) =
                     Z.min (QRect.width too_wide)
                       (Z.max 0 (100 - QRect.x too_wide)))
    (rows (crop too_wide bgr_100x100)).
Proof.
  apply (crop_truncates_to_frame too_wide bgr_100x100 100);
    try discriminate.
  apply Forall_forall. intros row Hin.
  apply repeat_spec in Hin. subst row. reflexivity.
Defined.

(** The rectangle 200 wide is cut down to the 100 columns of the frame. *)
Example too_wide_is_cut :
  map (@length _) (rows (crop too_wide bgr_100x100)) = repeat 100%nat 50.
Proof. vm_compute. reflexivity. Qed.

Lemma crop_negative_y_counts_from_bottom_witness :
  rows (crop from_bottom bgr_100x100) =
  map (py_slice (QRect.x from_bottom)
         (QRect.x from_bottom + QRect.width from_bottom))
    (firstn (Z.to_nat (QRect.height from_bottom))
       (skipn (Z.to_nat (Z.of_nat (length (rows bgr_100x100)) +
                         QRect.y from_bottom))
          (rows bgr_100x100))).
Proof.
  apply (crop_negative_y_counts_from_bottom from_bottom bgr_100x100);
    [discriminate | discriminate | reflexivity].
Defined.

Lemma crop_of_empty_roi_witness :
  currentROI fresh = QRect.null /\
  concat (rows (crop (currentROI fresh) bgr_100x100)) = [].
Proof.
  split; [reflexivity|].
  apply (crop_of_empty_roi (currentROI fresh) bgr_100x100).
  left. reflexivity.
Defined.


Lemma smooth_step_unknown_kind_witness :
  smoothOn (imgProcFlags unknown_smoothing) = true /\
  smoothType (imgProcSettings unknown_smoothing) = 7 /\
  smooth_step unknown_smoothing = Done tt unknown_smoothing.
Proof.
  split; [reflexivity|]. split; [reflexivity|].
  apply (smooth_step_unknown_kind unknown_smoothing); discriminate.
Defined.

Lemma run_emits_frames_then_statistics_witness :
  let w := mkWorker LoopHead with_roi in
  let w' := exec (three_iterations ++ [CallStop] ++ three_iterations) w in
  exists frames,
    forallb is_newFrame frames = true /\
    pc w' <> Hung /\
    emitted (self w') =
      emitted (self w) ++ frames ++
      match pc w' with
      | Returned => [updateStatisticsInGUI (statsData (self w'))]
      | _ => []
      end.
Proof.
  apply (run_emits_frames_then_statistics (mkWorker LoopHead with_roi)
           (three_iterations ++ [CallStop] ++ three_iterations));
    [reflexivity | left; reflexivity].
Defined.

Lemma run_never_publishes_average_witness :
  let w := mkWorker LoopHead with_roi in
  let w' := exec (three_iterations ++ [CallStop] ++ three_iterations) w in
  averageFPS (statsData (self w')) = averageFPS (statsData (self w)) /\
  nFramesProcessed (statsData (self w')) =
    nFramesProcessed (statsData (self w)) +
    match pc w' with Returned => 1 | _ => 0 end.
Proof.
  apply (run_never_publishes_average (mkWorker LoopHead with_roi)
           (three_iterations ++ [CallStop] ++ three_iterations));
    [reflexivity | left; reflexivity | repeat split; reflexivity
    | reflexivity].
Defined.

(** The run above: three frames, the stop, then the statistics, with one
    frame counted. *)
Example run_with_stop :
  let w' := exec (three_iterations ++ [CallStop] ++ three_iterations)
              (mkWorker LoopHead with_roi) in
  pc w' = Returned /\
  map is_newFrame (emitted (self w')) = [true; true; true; false] /\
  nFramesProcessed (statsData (self w')) = 1 /\
  sampleNumber (self w') = 1.
Proof. vm_compute. repeat split; reflexivity. Qed.

Lemma loop_runs_until_stop_witness :
  existsb is_stop three_iterations = false /\
  let w := mkWorker LoopHead with_roi in
  let w' := exec three_iterations w in
  doStop (self w') = false /\
  (running w' \/ exists e, pc w' = Died e).
Proof.
  split; [reflexivity|].
  apply (loop_runs_until_stop three_iterations eq_refl
           (mkWorker LoopHead with_roi));
    [left; reflexivity | reflexivity].
Defined.

Lemma passthrough_stream_witness :
  let w := mkWorker LoopHead with_roi in
  let w' := exec (alone two_frames) w in
  pc w' = LoopHead /\
  emitted (self w') =
    emitted (self w) ++
    map (fun i => newFrame (as_qimage (crop (currentROI (self w)) (snd i))))
      two_frames /\
  kept (self w) (self w').
Proof.
  apply (passthrough_stream as_qimage two_frames (fun m => eq_refl)
           (mkWorker LoopHead with_roi));
    reflexivity.
Defined.

Lemma stop_at_check_emits_no_frame_witness :
  0 < N /\
  let w := mkWorker LoopHead with_roi in
  let w' := exec three_iterations (act CallStop w) in
  match pc w' with
  | LoopHead | AfterLoop => emitted (self w') = emitted (self w)
  | Returned =>
      emitted (self w') =
      emitted (self w) ++ [updateStatisticsInGUI (statsData (self w'))]
  | LoopBody | Died _ | Hung => False
  end.
Proof.
  split; [reflexivity|].
  apply (stop_at_check_emits_no_frame (mkWorker LoopHead with_roi)
           three_iterations);
    reflexivity.
Defined.

(** ** Stopping and exceptions on the test objects *)


(** The stopped worker of the run above has returned after one frame and
    one statistics signal; the 20 ms of the iteration in flight are the
    sample recorded, as the rate 50.0, and one frame is counted. *)
Example stop_run :
  let w := mkWorker LoopBody with_roi in
  let w' := exec stop_in_flight (act CallStop w) in
  pc w' = Returned /\
  exit_sample w stop_in_flight = 20 /\
  map is_newFrame (emitted (self w')) = [true; false] /\
  fps (self w') = [50%float] /\
  sampleNumber (self w') = 1 /\
  nFramesProcessed (statsData (self w')) = 1 /\
  doStop (self w') = false.
Proof. vm_compute. repeat split; reflexivity. Qed.


Lemma exception_ends_run_witness :
  let w := mkWorker LoopBody grayscale_only in
  running w /\
  iteration 20 gray_2x2 (self w) =
    Raised IndexError
      (set_currentFrame (Some gray_2x2)
         (set_processingTime 20 grayscale_only)) /\
  (let w' := exec flags_off_first (worker_step 20 gray_2x2 w) in
   pc w' = Died IndexError /\ emitted (self w') = emitted (self w)) /\
  doStop (self w) = false /\ existsb is_stop flags_off_first = false /\
  (let w' := exec flags_off_first w in
   doStop (self w') = false /\ (running w' \/ exists e, pc w' = Died e)).
Proof.
  assert (Hrun : running (mkWorker LoopBody grayscale_only))
    by (right; reflexivity).
  assert (Hraise : iteration 20 gray_2x2 grayscale_only =
                   Raised IndexError
                     (set_currentFrame (Some gray_2x2)
                        (set_processingTime 20 grayscale_only)))
    by (vm_compute; reflexivity).
  destruct (exception_ends_run (mkWorker LoopBody grayscale_only)
              flags_off_first Hrun) as [Hdies Hstays].
  split; [exact Hrun|]. split; [exact Hraise|].
  split; [exact (Hdies 20 gray_2x2 IndexError _ eq_refl Hraise)|].
  split; [reflexivity|]. split; [reflexivity|].
  exact (Hstays eq_refl eq_refl).
Defined.

(** With the grayscale flag switched off first the same 2-D frame passes,
    and the worker is still in the loop after two frames. *)
Example flags_off_first_run :
  let w' := exec flags_off_first (mkWorker LoopBody grayscale_only) in
  pc w' = LoopHead /\ map is_newFrame (emitted (self w')) = [true; true].
Proof. vm_compute. split; reflexivity. Qed.

End Runs.

(** * The pipeline on the recording interface *)

Section TracedRuns.

#[local] Existing Instances window32 binary64 tracing.
Import Traced.

Lemma pipeline_applies_transforms_in_order_witness :
  currentFrame all_on = Some pixel /\
  pipeline all_on =
    Done tt
      (set_currentFrame
         (Some (mkMat [[[7]]; [[6; 50; 150; 3; 1]]; [[5; -1]]; [[4; 4]];
                       [[3; 2]]; [[2; 1; 3; 5; 0; 0]]; [[1]];
                       [[10; 20; 30]]] None))
         all_on) /\
  currentFrame all_on_median_even = Some pixel /\
  pipeline all_on_median_even =
    Raised cv2_error
      (set_currentFrame (Some (mkMat [[[1]]; [[10; 20; 30]]] None))
         all_on_median_even).
Proof.
  split; [reflexivity|]. split.
  - exact (eq_trans
             (pipeline_applies_transforms_in_order pixel all_on eq_refl)
             eq_refl).
  - split; [reflexivity|].
    exact (eq_trans
             (pipeline_applies_transforms_in_order pixel all_on_median_even
                eq_refl)
             eq_refl).
Defined.

End TracedRuns.
